(** * connectorx: the Python binding layer

    A shallow embedding of [connectorx-python/connectorx/__init__.py]:
    [rewrite_conn], [get_meta], [partition_sql], [read_sql],
    [reconstruct_arrow], [reconstruct_pandas], [remove_ending_semicolon]
    and [try_import_module].

    Conventions.
    - Python [str] is [string]; [int] is [Z]; [None]-able arguments are
      [option]; a [list] is a [list]; a [dict] handed on to the engine is
      an association list in insertion order.
    - Exceptions are values of [exn]; a call either raises or returns.
    - The native extension module ([_read_sql], [_read_sql2], [_get_meta],
      [_partition_sql]) is not part of the Python source.  Its entry points
      are fields of a [Runtime]; every call to one of them is recorded, in
      order, in the trace carried by the monad [M].
    - pandas, pyarrow, polars, modin and dask are third-party libraries.
      Their constructors are recorded symbolically; only the Python-level
      control flow around them (indexing, unpacking, branching, imports)
      is interpreted. *)

From Stdlib Require Import String Ascii List ZArith Bool Lia.
From Stdlib Require Import Numbers.DecimalString.
Import ListNotations.

Local Open Scope list_scope.
Local Open Scope string_scope.

(* ------------------------------------------------------------------ *)
(** ** Python [str] primitives used by the module *)

Module PyStr.

(** [s.endswith(suf)] *)
Fixpoint endswith (s suf : string) : bool :=
  match s with
  | EmptyString => String.eqb suf EmptyString
  | String _ t => String.eqb s suf || endswith t suf
  end.

(** [s[:-1]] *)
Fixpoint drop_last (s : string) : string :=
  match s with
  | EmptyString => EmptyString
  | String c t =>
      match t with
      | EmptyString => EmptyString
      | String _ _ => String c (drop_last t)
      end
  end.

(** [sub in s] *)
Fixpoint contains (sub s : string) : bool :=
  String.prefix sub s
  || match s with
     | EmptyString => false
     | String _ t => contains sub t
     end.

(** The text before and after the first occurrence of [sep], if any. *)
Fixpoint cut (sep : ascii) (s : string) : option (string * string) :=
  match s with
  | EmptyString => None
  | String c t =>
      if Ascii.eqb c sep then Some (EmptyString, t)
      else match cut sep t with
           | Some (a, b) => Some (String c a, b)
           | None => None
           end
  end.

(** [s.split(sep, 1)] for a one-character separator. *)
Definition split1 (sep : ascii) (s : string) : list string :=
  match cut sep s with
  | Some (a, b) => [a; b]
  | None => [s]
  end.

(** [s.split(sep)[0]] for a one-character separator. *)
Definition split_head (sep : ascii) (s : string) : string :=
  match cut sep s with
  | Some (a, _) => a
  | None => s
  end.

(** [str(n)] for an [int]. *)
Definition of_Z (n : Z) : string := NilEmpty.string_of_int (Z.to_int n).

End PyStr.

(* ------------------------------------------------------------------ *)
(** ** Exceptions and the call monad *)

Inductive exn : Type :=
| ValueError (msg : string)
| AssertionError (msg : string)
| IndexError (msg : string)
| TypeError (msg : string)
| ModuleNotFoundError (name : string)
| EngineError (kind msg : string).   (* raised inside the native engine *)

(** [Protocol = Literal["csv", "binary", "cursor", "simple", "text"]].
    Every literal is a non-empty string, so [not protocol] holds exactly
    for [None]. *)
Inductive Protocol : Type := Csv | Binary | Cursor | Simple | Text.

(** [class Connection]: the only state is the attribute [connection],
    and [__str__] returns it. *)
Record Connection : Type := { connection : string }.

(** [str | Connection] *)
Inductive conn_value : Type :=
| ConnStr (s : string)
| ConnObj (c : Connection).

(** [str(conn)] *)
Definition py_str (c : conn_value) : string :=
  match c with
  | ConnStr s => s
  | ConnObj o => connection o
  end.

(** The dict built for the engine by [partition_sql] and [read_sql]. *)
Record partition_query : Type := {
  pq_query : string;
  pq_column : string;
  pq_min : option Z;
  pq_max : option Z;
  pq_num : option Z
}.

(** Arguments of one call of the native [_read_sql]. *)
Record read_sql_call : Type := {
  rc_conn : string;
  rc_return_type : string;
  rc_queries : option (list string);
  rc_protocol : Protocol;
  rc_partition_query : option partition_query
}.

(** A numpy array as the binding sees it: a buffer of a given shape at
    some address, or the result of subscripting an array ([a[i]], which is
    numpy's and is recorded, not interpreted). *)
Inductive ndarray : Type :=
| NdBuffer (shape : list nat) (addr : Z)
| NdItem (a : ndarray) (i : Z).

(** [a.shape] *)
Fixpoint nd_shape (a : ndarray) : list nat :=
  match a with
  | NdBuffer shape _ => shape
  | NdItem a' _ => tl (nd_shape a')
  end.

(** An element of [df_infos["data"]]: an array, or a (values, mask) tuple. *)
Inductive block_data : Type :=
| BArray (a : ndarray)
| BTuple (values mask : ndarray).

Record block_info : Type := { dt : Z; cids : list Z }.

(** [_DataframeInfos] *)
Record df_infos : Type := {
  di_data : list block_data;
  di_headers : list string;
  di_block_infos : list block_info
}.

(** [_ArrowInfos]: column names and, per chunk, one pair of C pointers
    per column. *)
Definition arrow_infos : Type := (list string * list (list (Z * Z)))%type.

(** What a native call hands back. *)
Inductive payload : Type :=
| PDataframe (d : df_infos)
| PArrow (a : arrow_infos).

(** Calls into the native extension, as they appear in the trace. *)
Inductive event : Type :=
| EvReadSql (c : read_sql_call)
| EvReadSql2 (query : string) (conns : list (string * string))
| EvGetMeta (conn : string) (protocol : Protocol) (query : string)
| EvPartitionSql (conn : conn_value) (pq : partition_query).

(** The process environment a call runs in. *)
Record Runtime : Type := {
  has_module : string -> bool;
  native_read_sql : read_sql_call -> exn + payload;
  native_read_sql2 : string -> list (string * string) -> exn + payload;
  native_get_meta : string -> Protocol -> string -> exn + payload;
  native_partition_sql : conn_value -> partition_query -> exn + list string
}.

(** A computation: the native calls made so far, and how it ended. *)
Definition M (A : Type) : Type := (list event * (exn + A))%type.

Definition ret {A} (x : A) : M A := ([], inr x).
Definition raise {A} (e : exn) : M A := ([], inl e).

Definition bind {A B} (m : M A) (f : A -> M B) : M B :=
  match m with
  | (t, inl e) => (t, inl e)
  | (t, inr a) => let '(t', r) := f a in ((t ++ t')%list, r)
  end.

Definition lift {A} (r : exn + A) : M A := ([], r).

(** Perform a native call: log it, then continue with its outcome. *)
Definition native {A} (ev : event) (r : exn + A) : M A := ([ev], r).

Definition trace {A} (m : M A) : list event := fst m.
Definition outcome {A} (m : M A) : exn + A := snd m.

Definition raises {A} (m : M A) : bool :=
  match outcome m with inl _ => true | inr _ => false end.

Declare Scope py_scope.
Delimit Scope py_scope with py.
Notation "x <- c ;; k" := (bind c (fun x => k))
  (at level 61, c at next level, right associativity) : py_scope.
Notation "c ;;; k" := (bind c (fun _ => k))
  (at level 61, right associativity) : py_scope.
Local Open Scope py_scope.

(** [assert cond, msg], with assertions enabled (no [-O]) *)
Definition py_assert (cond : bool) (msg : string) : M unit :=
  if cond then ret tt else raise (AssertionError msg).

(* ------------------------------------------------------------------ *)
(** ** [remove_ending_semicolon] *)

Definition remove_ending_semicolon (query : string) : string :=
  if PyStr.endswith query ";" then PyStr.drop_last query else query.

(* ------------------------------------------------------------------ *)
(** ** [rewrite_conn] *)

(** [a, b = xs] *)
Definition unpack2 (xs : list string) : exn + (string * string) :=
  match xs with
  | [a; b] => inr (a, b)
  | _ :: _ :: _ :: _ =>
      inl (ValueError "too many values to unpack (expected 2)")
  | _ =>
      inl (ValueError
             ("not enough values to unpack (expected 2, got "
              ++ PyStr.of_Z (Z.of_nat (List.length xs)) ++ ")"))
  end.

Definition rewrite_conn (conn : conn_value) (protocol : option Protocol)
  : exn + (string * Protocol) :=
  let conn := py_str conn in
  match protocol with
  | Some p => inr (conn, p)
  | None =>
      match (if String.eqb conn "" then inr ("", "")
             else unpack2 (PyStr.split1 ":" conn)) with
      | inl e => inl e
      | inr (backend, connection_details) =>
          if PyStr.contains "redshift" backend then
            inr ("postgresql:" ++ connection_details, Cursor)
          else if PyStr.contains "clickhouse" backend then
            inr ("mysql:" ++ connection_details, Text)
          else
            inr (conn, Binary)
      end
  end.

(* ------------------------------------------------------------------ *)
(** ** Library values, recorded symbolically *)

(** [pa.Array._import_from_c(ptr, schema_ptr)] *)
Inductive pa_array : Type :=
| ImportFromC (array_ptr schema_ptr : Z).

(** [pa.RecordBatch.from_arrays(arrays, names)] *)
Inductive pa_record_batch : Type :=
| RecordBatchFromArrays (arrays : list pa_array) (names : list string).

(** [pa.Table.from_arrays(arrays)] and [pa.Table.from_batches(rbs)] *)
Inductive pa_table : Type :=
| TableFromArrays (arrays : list pa_array)
| TableFromBatches (rbs : list pa_record_batch).

(** The argument of [make_block]. *)
Inductive pd_values : Type :=
| RawValues (b : block_data)
| IntegerArray (values mask : ndarray)
| BooleanArray (values mask : ndarray)
| DatetimeArray (b : block_data).

(** [placement=binfo.cids] or [placement=binfo.cids[0]] *)
Inductive pd_placement : Type :=
| PlaceCids (cs : list Z)
| PlaceCid (c : Z).

(** [pd.core.internals.make_block(values, placement=...)] *)
Record pd_block : Type := make_block {
  blk_values : pd_values;
  blk_placement : pd_placement
}.

(** [pd.DataFrame(BlockManager(blocks, [Index(headers),
    RangeIndex(start=0, stop=nrows, step=1)]))] *)
Record DataFrame : Type := {
  df_blocks : list pd_block;
  df_headers : list string;
  df_nrows : nat
}.

(** What [read_sql] returns. *)
Inductive frame : Type :=
| FPandas (df : DataFrame)
| FSetIndex (index_col : string) (f : frame)   (* df.set_index(.., inplace=True) *)
| FModin (f : frame)                           (* mpd.DataFrame(df) *)
| FDask (f : frame) (npartitions : Z)          (* dd.from_pandas(df, npartitions=1) *)
| FArrow (t : pa_table)
| FToPandas (t : pa_table)                     (* df.to_pandas(...) *)
| FPolars (t : pa_table).                      (* pl.from_arrow / pl.DataFrame.from_arrow *)

(** [query: list[str] | str]; [QOther] is any other object. *)
Inductive query_arg : Type :=
| QStr (q : string)
| QList (qs : list string)
| QOther.

(** [conn: str | Connection | dict[str, str] | dict[str, Connection]] *)
Inductive conn_arg : Type :=
| Single (c : conn_value)
| Federated (d : list (string * conn_value)).

Record read_sql_args : Type := {
  ra_conn : conn_arg;
  ra_query : query_arg;
  ra_return_type : string;
  ra_protocol : option Protocol;
  ra_partition_on : option string;
  ra_partition_range : option (Z * Z);
  ra_partition_num : option Z;
  ra_index_col : option string
}.

(** A call that leaves every keyword argument at its default. *)
Definition plain_call (conn : conn_arg) (query : query_arg) : read_sql_args :=
  {| ra_conn := conn; ra_query := query; ra_return_type := "pandas";
     ra_protocol := None; ra_partition_on := None;
     ra_partition_range := None; ra_partition_num := None;
     ra_index_col := None |}.

(** [x in {...}] for strings *)
Definition str_in (x : string) (xs : list string) : bool :=
  existsb (String.eqb x) xs.

(** [xs[0]] *)
Definition list_head {A} (what : string) (xs : list A) : exn + A :=
  match xs with
  | x :: _ => inr x
  | [] => inl (IndexError (what ++ " index out of range"))
  end.

(** [shape[-1]] *)
Definition shape_last (shape : list nat) : exn + nat :=
  match rev shape with
  | n :: _ => inr n
  | [] => inl (IndexError "tuple index out of range")
  end.

(** [(block_data[0], block_data[1])]: the components of a tuple, or the
    first two rows of a bare array. *)
Definition block_items (b : block_data) : ndarray * ndarray :=
  match b with
  | BTuple v m => (v, m)
  | BArray a => (NdItem a 0, NdItem a 1)
  end.

(* ------------------------------------------------------------------ *)
(** ** The binding functions, over a fixed runtime *)

Section Binding.

Variable rt : Runtime.

(** [import name] *)
Definition py_import (name : string) : M unit :=
  if has_module rt name then ret tt else raise (ModuleNotFoundError name).

(** [try_import_module] *)
Definition try_import_module (name : string) : M unit :=
  match py_import name with
  | (t, inl (ModuleNotFoundError _)) =>
      (t, inl (ValueError
                 ("You need to install " ++ PyStr.split_head "." name
                  ++ " first")))
  | m => m
  end.

(** [reconstruct_arrow] *)
Definition reconstruct_arrow (result : payload) : M pa_table :=
  py_import "pyarrow";;;
  match result with
  | PDataframe _ =>
      (* names, ptrs = result, on a three-key dict *)
      raise (ValueError "too many values to unpack (expected 2)")
  | PArrow (names, ptrs) =>
      if Nat.eqb (List.length names) 0 then
        ret (TableFromArrays [])
      else
        let rbs :=
          map (fun chunk =>
                 RecordBatchFromArrays
                   (map (fun col_ptr => ImportFromC (fst col_ptr) (snd col_ptr))
                      chunk)
                   names)
            ptrs in
        ret (TableFromBatches rbs)
  end.

(** One iteration of the loop over [zip(block_infos, data)]. *)
Definition reconstruct_block (binfo : block_info) (b : block_data)
  : exn + pd_block :=
  if Z.eqb (dt binfo) 0 then
    inr (make_block (RawValues b) (PlaceCids (cids binfo)))
  else if Z.eqb (dt binfo) 1 then
    let '(v, m) := block_items b in
    match list_head "list" (cids binfo) with
    | inl e => inl e
    | inr c => inr (make_block (IntegerArray v m) (PlaceCid c))
    end
  else if Z.eqb (dt binfo) 2 then
    let '(v, m) := block_items b in
    match list_head "list" (cids binfo) with
    | inl e => inl e
    | inr c => inr (make_block (BooleanArray v m) (PlaceCid c))
    end
  else if Z.eqb (dt binfo) 3 then
    inr (make_block (DatetimeArray b) (PlaceCids (cids binfo)))
  else
    inl (ValueError ("unknown dt: " ++ PyStr.of_Z (dt binfo))).

(** The loop: stops at the first exception; [zip] stops at the shorter
    list. *)
Fixpoint reconstruct_blocks (binfos : list block_info) (data : list block_data)
  : exn + list pd_block :=
  match binfos, data with
  | binfo :: binfos', b :: data' =>
      match reconstruct_block binfo b with
      | inl e => inl e
      | inr blk =>
          match reconstruct_blocks binfos' data' with
          | inl e => inl e
          | inr blks => inr (blk :: blks)
          end
      end
  | _, _ => inr []
  end.

(** [reconstruct_pandas] *)
Definition reconstruct_pandas (df_infos : payload) : M DataFrame :=
  py_import "pandas";;;
  match df_infos with
  | PArrow _ =>
      (* df_infos["data"], on a tuple *)
      raise (TypeError "tuple indices must be integers or slices, not str")
  | PDataframe d =>
      let data := di_data d in
      let headers := di_headers d in
      let block_infos := di_block_infos d in
      first <- lift (list_head "list" data);;
      nrows <- lift (match first with
                     | BTuple v _ => shape_last (nd_shape v)
                     | BArray a => shape_last (nd_shape a)
                     end);;
      blocks <- lift (reconstruct_blocks block_infos data);;
      ret {| df_blocks := blocks; df_headers := headers; df_nrows := nrows |}
  end.

(** [get_meta] *)
Definition get_meta (conn : conn_value) (query : string)
    (protocol : option Protocol) : M DataFrame :=
  cp <- lift (rewrite_conn conn protocol);;
  let '(conn, protocol) := cp in
  result <- native (EvGetMeta conn protocol query)
                   (native_get_meta rt conn protocol query);;
  reconstruct_pandas result.

(** [partition_sql] *)
Definition partition_sql (conn : conn_value) (query partition_on : string)
    (partition_num : Z) (partition_range : option (Z * Z)) : M (list string) :=
  let partition_query :=
    {| pq_query := query;
       pq_column := partition_on;
       pq_min := option_map fst partition_range;
       pq_max := option_map snd partition_range;
       pq_num := Some partition_num |} in
  native (EvPartitionSql conn partition_query)
         (native_partition_sql rt conn partition_query).

End Binding.

(* ------------------------------------------------------------------ *)
(** ** [read_sql] *)

Definition msg_fed_partition : string :=
  "Federated query does not support query partitioning for now".
Definition msg_fed_protocol : string :=
  "Federated query does not support specifying protocol for now".
Definition msg_multi_partition : string :=
  "Partition on multiple queries is not supported.".
Definition msg_query_type : string :=
  "query must be either str or a list of str".

(** Lines 315-317: a one-element list is replaced by its element, with
    an ending semicolon removed. *)
Definition unwrap_single (query : query_arg) : query_arg :=
  match query with
  | QList [q] => QStr (remove_ending_semicolon q)
  | _ => query
  end.

(** Lines 346-368: what the engine will be asked to run, as the pair
    [(queries, partition_query)]. *)
Definition plan_queries (query : query_arg) (partition_on : option string)
    (partition_range : option (Z * Z)) (partition_num : option Z)
  : exn + (option (list string) * option partition_query) :=
  match query with
  | QStr q =>
      let q := remove_ending_semicolon q in
      match partition_on with
      | None => inr (Some [q], None)
      | Some col =>
          inr (None,
               Some {| pq_query := q;
                       pq_column := col;
                       pq_min := option_map fst partition_range;
                       pq_max := option_map snd partition_range;
                       pq_num := partition_num |})
      end
  | QList qs =>
      let queries := map remove_ending_semicolon qs in
      match partition_on with
      | None => inr (Some queries, None)
      | Some _ => inl (ValueError msg_multi_partition)
      end
  | QOther => inl (ValueError msg_query_type)
  end.

Section ReadSql.

Variable rt : Runtime.

(** Lines 319-343: the federated branch; [conns] is the dict after
    [str] has been applied to its values. *)
Definition read_sql_federated (conns : list (string * string))
    (query : query_arg) (a : read_sql_args) : M frame :=
  match ra_partition_on a, query with
  | None, QStr q =>
      py_assert (match ra_protocol a with None => true | Some _ => false end)
                msg_fed_protocol;;;
      let q := remove_ending_semicolon q in
      result <- native (EvReadSql2 q conns) (native_read_sql2 rt q conns);;
      t <- reconstruct_arrow rt result;;
      let df := if String.eqb (ra_return_type a) "pandas"
                then FToPandas t else FArrow t in
      if String.eqb (ra_return_type a) "polars" then
        try_import_module rt "polars";;;
        ret (FPolars t)
      else ret df
  | _, _ => raise (AssertionError msg_fed_partition)
  end.

(** Lines 382-392: after the engine returned, for the pandas family. *)
Definition finish_pandas (a : read_sql_args) (result : payload) : M frame :=
  let return_type := ra_return_type a in
  df <- reconstruct_pandas rt result;;
  let df := match ra_index_col a with
            | Some c => FSetIndex c (FPandas df)
            | None => FPandas df
            end in
  if String.eqb return_type "modin" then
    try_import_module rt "modin.pandas";;;
    ret (FModin df)
  else if String.eqb return_type "dask" then
    try_import_module rt "dask.dataframe";;;
    ret (FDask df 1)
  else ret df.

(** Lines 404-411: after the engine returned, for the arrow family. *)
Definition finish_arrow (a : read_sql_args) (result : payload) : M frame :=
  let return_type := ra_return_type a in
  t <- reconstruct_arrow rt result;;
  if str_in return_type ["polars"; "polars2"] then
    try_import_module rt "polars";;;
    ret (FPolars t)
  else ret (FArrow t).

(** Lines 372-415: dispatch on the return type. *)
Definition read_sql_dispatch (conn : string) (protocol : Protocol)
    (queries : option (list string)) (pq : option partition_query)
    (a : read_sql_args) : M frame :=
  let return_type := ra_return_type a in
  let call rtype :=
    {| rc_conn := conn; rc_return_type := rtype; rc_queries := queries;
       rc_protocol := protocol; rc_partition_query := pq |} in
  if str_in return_type ["modin"; "dask"; "pandas"] then
    try_import_module rt "pandas";;;
    result <- native (EvReadSql (call "pandas"))
                     (native_read_sql rt (call "pandas"));;
    finish_pandas a result
  else if str_in return_type ["arrow"; "arrow2"; "polars"; "polars2"] then
    try_import_module rt "pyarrow";;;
    let rtype := if str_in return_type ["arrow2"; "polars"; "polars2"]
                 then "arrow2" else "arrow" in
    result <- native (EvReadSql (call rtype))
                     (native_read_sql rt (call rtype));;
    finish_arrow a result
  else raise (ValueError return_type).

(** [read_sql] *)
Definition read_sql (a : read_sql_args) : M frame :=
  let query := unwrap_single (ra_query a) in
  match ra_conn a with
  | Federated d =>
      let conns := map (fun kv => (fst kv, py_str (snd kv))) d in
      read_sql_federated conns query a
  | Single c =>
      let conn := py_str c in
      plan <- lift (plan_queries query (ra_partition_on a)
                      (ra_partition_range a) (ra_partition_num a));;
      let '(queries, pq) := plan in
      cp <- lift (rewrite_conn (ConnStr conn) (ra_protocol a));;
      let '(conn, protocol) := cp in
      read_sql_dispatch conn protocol queries pq a
  end.

(** [read_sql_pandas] *)
Definition read_sql_pandas (sql : query_arg) (con : conn_arg)
    (index_col : option string) (protocol : option Protocol)
    (partition_on : option string) (partition_range : option (Z * Z))
    (partition_num : option Z) : M frame :=
  read_sql {| ra_conn := con; ra_query := sql; ra_return_type := "pandas";
              ra_protocol := protocol; ra_partition_on := partition_on;
              ra_partition_range := partition_range;
              ra_partition_num := partition_num;
              ra_index_col := index_col |}.

End ReadSql.

(** The native [_read_sql] calls made by a computation, in order. *)
Fixpoint read_sql_calls (t : list event) : list read_sql_call :=
  match t with
  | [] => []
  | EvReadSql c :: t' => c :: read_sql_calls t'
  | _ :: t' => read_sql_calls t'
  end.

(** A runtime with every module installed and an engine that returns a
    one-column, zero-row result; used to run the binding on examples. *)
Definition demo_runtime : Runtime :=
  let df := PDataframe {| di_data := [BArray (NdBuffer [1; 0]%nat 4096)];
                          di_headers := ["id"];
                          di_block_infos := [{| dt := 0; cids := [0%Z] |}] |} in
  {| has_module := fun _ => true;
     native_read_sql := fun c =>
       if String.eqb (rc_return_type c) "pandas" then inr df
       else inr (PArrow (["id"], [[(8192, 8200)%Z]]));
     native_read_sql2 := fun _ _ => inr (PArrow (["id"], [[(8192, 8200)%Z]]));
     native_get_meta := fun _ _ _ => inr df;
     native_partition_sql := fun _ _ => inr [] |}.

(* ------------------------------------------------------------------ *)
(** ** The partitioner of the native engine *)

Module Partitioner.

Local Open Scope Z_scope.

(** Modelled from the spec: [SubQuery] of the data model, "a complete,
    independently executable SQL string plus an ordinal index".  The
    native engine that builds sub-queries is not in the Python source. *)
Record SubQuery : Type := { sq_sql : string; sq_index : Z }.

(** Modelled from the spec: the upper end of a partition's range
    predicate, [< hi] or, for the last partition, [<= hi].  The native
    partitioner is not in the Python source. *)
Inductive upper_bound : Type :=
| Below (hi : Z)       (* column < hi *)
| AtMost (hi : Z).     (* column <= hi *)

(** Modelled from the spec: a boundary predicate of the native
    partitioner; [rp_lower = None] is "unbounded below", [Some lo] is
    [column >= lo]. *)
Record range_pred : Type := { rp_lower : option Z; rp_upper : upper_bound }.

(** Modelled from the spec: [ceil(a / b)] for positive [b], as used by
    the width of the native partitioner. *)
Definition ceil_div (a b : Z) : Z := (a + b - 1) / b.

(** Modelled from the spec: the partition width,
    "width = ceil((max-min+1)/num)". *)
Definition width (min max num : Z) : Z := ceil_div (max - min + 1) num.

(** Modelled from the spec: the range of the partition of ordinal [i].
    Ranges are half-open and start at [min + i * width]; "the first
    partition's lower bound is unbounded below"; the "last partition
    uses <= on its upper bound", which is [max] (the scenario of the
    spec: 76<=id<=100). *)
Definition range_of (min max num i : Z) : range_pred :=
  let w := width min max num in
  {| rp_lower := if i =? 0 then None else Some (min + i * w);
     rp_upper := if i =? num - 1 then AtMost max
                 else Below (min + (i + 1) * w) |}.

(** Modelled from the spec: the ordinal indices [0 .. num-1] of the
    sub-queries of the native partitioner. *)
Definition ordinals (num : Z) : list Z :=
  map Z.of_nat (seq 0 (Z.to_nat num)).

(** Modelled from the spec: the ranges of all [num] partitions of the
    native partitioner, in ordinal order. *)
Definition ranges (min max num : Z) : list range_pred :=
  map (range_of min max num) (ordinals num).

(** Modelled from the spec: the predicate of the native partitioner as
    SQL text over the derived table [t],
    "t.<column> >= lo AND t.<column> < hi", without the conjunct of an
    unbounded side. *)
Definition render_pred (column : string) (p : range_pred) : string :=
  let col := ("t." ++ column)%string in
  let up := match rp_upper p with
            | Below hi => (col ++ " < " ++ PyStr.of_Z hi)%string
            | AtMost hi => (col ++ " <= " ++ PyStr.of_Z hi)%string
            end in
  match rp_lower p with
  | None => up
  | Some lo => (col ++ " >= " ++ PyStr.of_Z lo ++ " AND " ++ up)%string
  end.

(** Modelled from the spec: "Each SubQuery wraps the original query as
    a derived table: SELECT * FROM (<query>) AS t WHERE ...". *)
Definition wrap (query column : string) (p : range_pred) : string :=
  ("SELECT * FROM (" ++ query ++ ") AS t WHERE " ++ render_pred column p)%string.

(** Modelled from the spec: [PartitionSpec] of the data model, the
    input of the native partitioner. *)
Record PartitionSpec : Type := {
  ps_query : string;
  ps_column : string;
  ps_min : option Z;
  ps_max : option Z;
  ps_num : Z
}.

(** Modelled from the spec: the error kinds [ConfigError] and
    [PartitionError] of section 7, raised by the native engine. *)
Definition ConfigError (msg : string) : exn := EngineError "ConfigError" msg.
Definition PartitionError (msg : string) : exn := EngineError "PartitionError" msg.

Section WithBackend.

(** Modelled from the spec: the bounds-discovery query
    [SELECT MIN(column), MAX(column) FROM (query)], run against the
    backend: it answers with the bounds or fails. *)
Variable discover : string -> string -> exn + (Z * Z).

(** Modelled from the spec: the contract
    [partition(query, column, num, range?)] of section 4.1.
    [num >= 1] is the invariant of [PartitionSpec]; [num == 1] returns
    the query itself; otherwise the bounds are the given range or the
    discovered one, [min > max] is a [PartitionError], and the
    sub-queries are the wrapped ranges in ordinal order. *)
Definition partition (s : PartitionSpec) : exn + list SubQuery :=
  if ps_num s <? 1 then inl (ConfigError "num must be at least 1")
  else if ps_num s =? 1 then
    inr [{| sq_sql := ps_query s; sq_index := 0 |}]
  else
    match (match ps_min s, ps_max s with
           | Some lo, Some hi => inr (lo, hi)
           | _, _ => discover (ps_query s) (ps_column s)
           end) with
    | inl e => inl e
    | inr (lo, hi) =>
        if hi <? lo then inl (PartitionError "min > max")
        else
          inr (map (fun i =>
                      {| sq_sql := wrap (ps_query s) (ps_column s)
                                     (range_of lo hi (ps_num s) i);
                         sq_index := i |})
                 (ordinals (ps_num s)))
    end.

(** Modelled from the spec: the native conversion of the dict received
    from Python into a [PartitionSpec]; [num] is required. *)
Definition spec_of (pq : partition_query) : exn + PartitionSpec :=
  match pq_num pq with
  | None => inl (ConfigError "num is required")
  | Some n =>
      inr {| ps_query := pq_query pq; ps_column := pq_column pq;
             ps_min := pq_min pq; ps_max := pq_max pq; ps_num := n |}
  end.

(** Modelled from the spec: the native [_partition_sql], which runs
    the partitioner and returns the SQL of each sub-query. *)
Definition engine_partition_sql (pq : partition_query) : exn + list string :=
  match spec_of pq with
  | inl e => inl e
  | inr s =>
      match partition s with
      | inl e => inl e
      | inr sqs => inr (map sq_sql sqs)
      end
  end.

(** Modelled from the spec: pre-split queries as sub-queries of the
    native engine, "used verbatim as SubQueries in given order". *)
Definition enumerate (qs : list string) : list SubQuery :=
  map (fun iq => {| sq_sql := snd iq; sq_index := fst iq |})
      (combine (ordinals (Z.of_nat (List.length qs))) qs).

(** Modelled from the spec: how the native [_read_sql] obtains its
    sub-queries (section 4.1): a pre-split list is used verbatim and
    partitioning is skipped; a partition spec is partitioned; both
    together are a [ConfigError]. *)
Definition subqueries (c : read_sql_call) : exn + list SubQuery :=
  match rc_queries c, rc_partition_query c with
  | Some qs, None => inr (enumerate qs)
  | None, Some pq =>
      match spec_of pq with
      | inl e => inl e
      | inr s => partition s
      end
  | Some _, Some _ =>
      inl (ConfigError "partitioning and a query list are mutually exclusive")
  | None, None => inl (ConfigError "no query given")
  end.

End WithBackend.

(** Modelled from the spec: the native engine behind a runtime; bounds
    discovery per connection, and
    the dispatcher, decoder and assembler of sections 4.2-4.4 as one
    function of the descriptor, the sub-queries and the protocol
    ([execute(descriptor, subqueries, protocol)]). *)
Record Backend : Type := {
  be_modules : string -> bool;
  be_discover : string -> string -> string -> exn + (Z * Z);
  be_execute : string -> string -> list SubQuery -> Protocol -> exn + payload;
  be_federate : string -> list (string * string) -> exn + payload;
  be_meta : string -> Protocol -> string -> exn + payload
}.

(** Modelled from the spec: the native extension as the spec describes
    it, partitioning first and executing the sub-queries next. *)
Definition runtime_of (b : Backend) : Runtime :=
  {| has_module := be_modules b;
     native_read_sql := fun c =>
       match subqueries (be_discover b (rc_conn c)) c with
       | inl e => inl e
       | inr sqs => be_execute b (rc_conn c) (rc_return_type c) sqs (rc_protocol c)
       end;
     native_read_sql2 := be_federate b;
     native_get_meta := be_meta b;
     native_partition_sql := fun conn pq =>
       engine_partition_sql (be_discover b (py_str conn)) pq |}.

End Partitioner.

(** The format [read_sql] asks the engine for, and the module it needs
    first (lines 372-373 and 394-399). *)
Definition engine_format (return_type : string) : option (string * string) :=
  if str_in return_type ["modin"; "dask"; "pandas"] then
    Some ("pandas", "pandas")
  else if str_in return_type ["arrow"; "arrow2"; "polars"; "polars2"] then
    Some ("pyarrow",
          if str_in return_type ["arrow2"; "polars"; "polars2"]
          then "arrow2" else "arrow")
  else None.

(** The same call with another [query] argument. *)
Definition with_query (a : read_sql_args) (query : query_arg) : read_sql_args :=
  {| ra_conn := ra_conn a; ra_query := query;
     ra_return_type := ra_return_type a; ra_protocol := ra_protocol a;
     ra_partition_on := ra_partition_on a;
     ra_partition_range := ra_partition_range a;
     ra_partition_num := ra_partition_num a;
     ra_index_col := ra_index_col a |}.

(** The same call with other partitioning arguments. *)
Definition with_partition (a : read_sql_args) (partition_on : option string)
    (partition_range : option (Z * Z)) (partition_num : option Z)
  : read_sql_args :=
  {| ra_conn := ra_conn a; ra_query := ra_query a;
     ra_return_type := ra_return_type a; ra_protocol := ra_protocol a;
     ra_partition_on := partition_on;
     ra_partition_range := partition_range;
     ra_partition_num := partition_num;
     ra_index_col := ra_index_col a |}.

(** The default of [hd] on lists of engine calls. *)
Definition call_none : read_sql_call :=
  {| rc_conn := ""; rc_return_type := ""; rc_queries := None;
     rc_protocol := Binary; rc_partition_query := None |}.

(** A backend with every module installed, whose tables hold ids 1 to
    100 and whose execution answers with one row-less block per
    sub-query. *)
Definition demo_backend : Partitioner.Backend :=
  {| Partitioner.be_modules := fun _ => true;
     Partitioner.be_discover := fun _ _ _ => inr (1, 100)%Z;
     Partitioner.be_execute := fun _ fmt sqs _ =>
       if String.eqb fmt "pandas" then
         inr (PDataframe
                {| di_data := map (fun _ => BArray (NdBuffer [2; 0]%nat 4096)) sqs;
                   di_headers := ["id"; "amount"];
                   di_block_infos := map (fun _ => {| dt := 0; cids := [0; 1]%Z |}) sqs |})
       else inr (PArrow (["id"; "amount"],
                         map (fun _ => [(8192, 8200); (8208, 8216)]%Z) sqs));
     Partitioner.be_federate := fun _ _ => inr (PArrow ([], []));
     Partitioner.be_meta := fun _ _ _ =>
       inr (PDataframe {| di_data := [BArray (NdBuffer [2; 0]%nat 4096)];
                          di_headers := ["id"; "amount"];
                          di_block_infos := [{| dt := 0; cids := [0; 1]%Z |}] |}) |}.

(* ------------------------------------------------------------------ *)
(** ** [Connection.__new__] *)

Section ConnectionClass.

(** [urllib.parse.quote] and [urllib.parse.urlencode], which belong to
    the Python standard library. *)
Variable quote : string -> string.
Variable urlencode : list (string * string) -> string.

(** [f"{port}"] for [port: int | None] *)
Definition str_port (port : option Z) : string :=
  match port with
  | Some n => PyStr.of_Z n
  | None => "None"
  end.

(** [Connection.__new__] (lines 551-573); keyword arguments left out by
    the caller take the defaults of the signature: empty strings,
    [port = None] and [database_options = None].  [if database_options]
    holds for a dict that is neither [None] nor empty. *)
Definition Connection_new (backend username password server : string)
    (port : option Z) (database : string)
    (database_options : option (list (string * string)))
    (db_path : string) : Connection :=
  if String.eqb backend "sqlite" then
    let db_path := quote db_path in
    {| connection := backend ++ "://" ++ db_path |}
  else
    let base := backend ++ "://" ++ username ++ ":" ++ password ++ "@"
                ++ server ++ ":" ++ str_port port ++ "/" ++ database in
    match database_options with
    | Some ((_ :: _) as options) =>
        {| connection := base ++ "?" ++ urlencode options |}
    | _ => {| connection := base |}
    end.

End ConnectionClass.

(** [demo_runtime] with only the listed modules installed. *)
Definition runtime_with (modules : list string) : Runtime :=
  {| has_module := fun name => str_in name modules;
     native_read_sql := native_read_sql demo_runtime;
     native_read_sql2 := native_read_sql2 demo_runtime;
     native_get_meta := native_get_meta demo_runtime;
     native_partition_sql := native_partition_sql demo_runtime |}.


(* ------------------------------------------------------------------ *)
(** ** Sample calls *)

(** Two pre-split queries together with a partition column. *)
Definition call_list_and_partition : read_sql_args :=
  {| ra_conn := Single (ConnStr "postgresql://u:p@h:5432/db");
     ra_query := QList ["SELECT * FROM t WHERE id <= 10";
                        "SELECT * FROM t WHERE id > 10"];
     ra_return_type := "pandas"; ra_protocol := None;
     ra_partition_on := Some "id"; ra_partition_range := None;
     ra_partition_num := Some 2%Z; ra_index_col := None |}.

(** A one-element list together with a partition column. *)
Definition call_singleton_and_partition : read_sql_args :=
  {| ra_conn := Single (ConnStr "postgresql://u:p@h:5432/db");
     ra_query := QList ["SELECT * FROM t"];
     ra_return_type := "pandas"; ra_protocol := None;
     ra_partition_on := Some "id";
     ra_partition_range := Some (1, 100)%Z;
     ra_partition_num := Some 4%Z; ra_index_col := None |}.

(** A federated call that names a protocol. *)
Definition call_federated_protocol : read_sql_args :=
  {| ra_conn := Federated [("db1", ConnStr "postgresql://u:p@h1:5432/a");
                           ("db2", ConnStr "postgresql://u:p@h2:5432/b")];
     ra_query := QStr "SELECT * FROM db1.t JOIN db2.s ON t.id = s.id";
     ra_return_type := "pandas"; ra_protocol := Some Binary;
     ra_partition_on := None; ra_partition_range := None;
     ra_partition_num := None; ra_index_col := None |}.

(* ================================================================== *)
(** * Properties *)

(* ------------------------------------------------------------------ *)
(** ** Strings *)

Module PyStrFacts.
Import PyStr.

Lemma endswith_app_char (p : string) (c : ascii) :
  endswith (p ++ String c "") (String c "") = true.
Proof.
  induction p as [|a t IH]; simpl.
  - now rewrite Ascii.eqb_refl.
  - rewrite IH. apply orb_true_r.
Qed.

Lemma endswith_char_inv (q : string) (c : ascii) :
  endswith q (String c "") = true -> exists p, q = p ++ String c "".
Proof.
  induction q as [|a t IH]; simpl; intros H.
  - discriminate.
  - apply orb_true_iff in H. destruct H as [H | H].
    + exists "". simpl.
      change (String.eqb (String a t) (String c "") = true) in H.
      now apply String.eqb_eq in H.
    + destruct (IH H) as [p ->]. now exists (String a p).
Qed.

Lemma drop_last_app_char (p : string) (c : ascii) :
  drop_last (p ++ String c "") = p.
Proof.
  induction p as [|a t IH]; simpl.
  - reflexivity.
  - rewrite IH. now destruct t.
Qed.

Lemma app_char_inj (p p' : string) (c : ascii) :
  p ++ String c "" = p' ++ String c "" -> p = p'.
Proof.
  intros H. rewrite <- (drop_last_app_char p c), H.
  apply drop_last_app_char.
Qed.

Lemma prefix_colon (t : string) : String.prefix ":" (String ":" t) = true.
Proof.
  simpl. destruct (ascii_dec ":" ":") as [_ | H]; [now destruct t | now destruct H].
Qed.

(** [":" in backend] is false exactly when [cut] finds nothing to cut. *)
Lemma cut_app (backend details : string) :
  contains ":" backend = false ->
  cut ":" (backend ++ String ":" details) = Some (backend, details).
Proof.
  induction backend as [|a t IH]; intros H; simpl.
  - reflexivity.
  - change (String.prefix ":" (String a t) || contains ":" t = false) in H.
    apply orb_false_iff in H. destruct H as [Hp Ht].
    destruct (Ascii.eqb_spec a ":") as [-> | Hne].
    + now rewrite prefix_colon in Hp.
    + now rewrite (IH Ht).
Qed.

Lemma cut_none (s : string) :
  contains ":" s = false -> cut ":" s = None.
Proof.
  induction s as [|a t IH]; intros H; simpl.
  - reflexivity.
  - change (String.prefix ":" (String a t) || contains ":" t = false) in H.
    apply orb_false_iff in H. destruct H as [Hp Ht].
    destruct (Ascii.eqb_spec a ":") as [-> | Hne].
    + now rewrite prefix_colon in Hp.
    + now rewrite (IH Ht).
Qed.

Lemma app_not_empty (a b : string) (c : ascii) :
  String.eqb (a ++ String c b) "" = false.
Proof. apply String.eqb_neq. now destruct a. Qed.

End PyStrFacts.

(** [remove_ending_semicolon] removes exactly the last character of a
    string that ends with a semicolon, and nothing otherwise. *)
Lemma remove_ending_semicolon_ends (p : string) :
  remove_ending_semicolon (p ++ ";") = p.
Proof.
  unfold remove_ending_semicolon.
  rewrite PyStrFacts.endswith_app_char. apply PyStrFacts.drop_last_app_char.
Qed.

Lemma remove_ending_semicolon_other (q : string) :
  (forall p, q <> p ++ ";") -> remove_ending_semicolon q = q.
Proof.
  intros H. unfold remove_ending_semicolon.
  destruct (PyStr.endswith q ";") eqn:E; [|reflexivity].
  destruct (PyStrFacts.endswith_char_inv _ _ E) as [p Hp].
  now destruct (H p).
Qed.

(** Removing twice differs from removing once exactly on strings that
    end with two semicolons. *)
Lemma remove_ending_semicolon_twice (p : string) :
  remove_ending_semicolon (remove_ending_semicolon (p ++ ";;")) = p
  /\ remove_ending_semicolon (p ++ ";;") = p ++ ";".
Proof.
  assert (E : p ++ ";;" = (p ++ ";") ++ ";").
  { induction p as [|a t IH]; simpl; [reflexivity | now rewrite IH]. }
  rewrite E, !remove_ending_semicolon_ends. now split.
Qed.

(* ------------------------------------------------------------------ *)
(** ** The call monad *)

Lemma trace_bind {A B} (m : M A) (f : A -> M B) :
  trace (bind m f)
  = (trace m ++ match outcome m with
                | inr a => trace (f a)
                | inl _ => []
                end)%list.
Proof.
  destruct m as [t [e | a]]; simpl.
  - now rewrite app_nil_r.
  - now destruct (f a).
Qed.

Lemma outcome_bind {A B} (m : M A) (f : A -> M B) :
  outcome (bind m f)
  = match outcome m with
    | inr a => outcome (f a)
    | inl e => inl e
    end.
Proof.
  destruct m as [t [e | a]]; simpl; [reflexivity | now destruct (f a)].
Qed.

Lemma trace_lift {A} (r : exn + A) : trace (lift r) = [].
Proof. reflexivity. Qed.

Lemma trace_try_import_module rt name : trace (try_import_module rt name) = [].
Proof.
  unfold try_import_module, py_import. now destruct (has_module rt name).
Qed.

Lemma outcome_try_import_module rt name :
  has_module rt name = true -> outcome (try_import_module rt name) = inr tt.
Proof.
  intros H. unfold try_import_module, py_import. now rewrite H.
Qed.

Lemma try_import_module_missing rt name :
  has_module rt name = false ->
  exists e, outcome (try_import_module rt name) = inl e.
Proof.
  intros H. unfold try_import_module, py_import. rewrite H. simpl. eauto.
Qed.

Lemma trace_reconstruct_arrow rt p : trace (reconstruct_arrow rt p) = [].
Proof.
  unfold reconstruct_arrow, py_import.
  destruct (has_module rt "pyarrow"); [|reflexivity].
  destruct p as [d | [names ptrs]]; simpl; [reflexivity|].
  now destruct (Nat.eqb _ _).
Qed.

Lemma trace_reconstruct_pandas rt p : trace (reconstruct_pandas rt p) = [].
Proof.
  unfold reconstruct_pandas, py_import.
  destruct (has_module rt "pandas"); [|reflexivity].
  destruct p as [d | a]; simpl; [|reflexivity].
  destruct (list_head _ _) as [e | first]; simpl; [reflexivity|].
  destruct (match first with BArray _ => _ | BTuple _ _ => _ end); simpl;
    [reflexivity|].
  now destruct (reconstruct_blocks _ _).
Qed.

Lemma trace_finish_pandas rt a result : trace (finish_pandas rt a result) = [].
Proof.
  unfold finish_pandas.
  rewrite trace_bind, trace_reconstruct_pandas.
  destruct (outcome (reconstruct_pandas rt result)) as [e | df]; [reflexivity|].
  simpl.
  repeat match goal with
         | |- context [if ?b then _ else _] => destruct b
         end;
    try reflexivity;
    rewrite trace_bind, trace_try_import_module;
    now destruct (outcome (try_import_module rt _)).
Qed.

Lemma trace_finish_arrow rt a result : trace (finish_arrow rt a result) = [].
Proof.
  unfold finish_arrow.
  rewrite trace_bind, trace_reconstruct_arrow.
  destruct (outcome (reconstruct_arrow rt result)) as [e | t]; [reflexivity|].
  cbv beta. rewrite app_nil_l.
  destruct (str_in (ra_return_type a) ["polars"; "polars2"]); [|reflexivity].
  rewrite trace_bind, trace_try_import_module.
  now destruct (outcome (try_import_module rt "polars")).
Qed.

Lemma trace_native_then {A B} (ev : event) (r : exn + A) (k : A -> M B) :
  (forall x, trace (k x) = []) -> trace (bind (native ev r) k) = [ev].
Proof.
  intros H. rewrite trace_bind. simpl.
  destruct r as [e | x]; [reflexivity | now rewrite H].
Qed.

(** The dispatch makes at most one native call, and exactly one when the
    return type is known and its module can be imported. *)
Lemma trace_read_sql_dispatch rt conn protocol queries pq a :
  trace (read_sql_dispatch rt conn protocol queries pq a)
  = match engine_format (ra_return_type a) with
    | Some (module, fmt) =>
        if has_module rt module then
          [EvReadSql {| rc_conn := conn; rc_return_type := fmt;
                        rc_queries := queries; rc_protocol := protocol;
                        rc_partition_query := pq |}]
        else []
    | None => []
    end.
Proof.
  unfold read_sql_dispatch, engine_format.
  destruct (str_in (ra_return_type a) ["modin"; "dask"; "pandas"]).
  - rewrite trace_bind, trace_try_import_module.
    unfold try_import_module, py_import.
    destruct (has_module rt "pandas"); [|reflexivity].
    simpl outcome. cbv iota. simpl app.
    apply trace_native_then. intros. apply trace_finish_pandas.
  - destruct (str_in (ra_return_type a) ["arrow"; "arrow2"; "polars"; "polars2"]);
      [|reflexivity].
    rewrite trace_bind, trace_try_import_module.
    unfold try_import_module, py_import.
    destruct (has_module rt "pyarrow"); [|reflexivity].
    simpl outcome. cbv iota. simpl app.
    apply trace_native_then. intros. apply trace_finish_arrow.
Qed.

Lemma read_sql_single rt a c :
  ra_conn a = Single c ->
  read_sql rt a
  = (plan <- lift (plan_queries (unwrap_single (ra_query a)) (ra_partition_on a)
                     (ra_partition_range a) (ra_partition_num a));;
     let '(queries, pq) := plan in
     cp <- lift (rewrite_conn (ConnStr (py_str c)) (ra_protocol a));;
     let '(conn, protocol) := cp in
     read_sql_dispatch rt conn protocol queries pq a).
Proof. intros H. unfold read_sql. now rewrite H. Qed.

Lemma trace_read_sql_single rt a c :
  ra_conn a = Single c ->
  trace (read_sql rt a)
  = match plan_queries (unwrap_single (ra_query a)) (ra_partition_on a)
            (ra_partition_range a) (ra_partition_num a) with
    | inl _ => []
    | inr (queries, pq) =>
        match rewrite_conn (ConnStr (py_str c)) (ra_protocol a) with
        | inl _ => []
        | inr (conn, protocol) =>
            trace (read_sql_dispatch rt conn protocol queries pq a)
        end
    end.
Proof.
  intros H. rewrite (read_sql_single rt a c H).
  destruct (plan_queries _ _ _ _) as [e | [queries pq]]; [reflexivity|].
  destruct (rewrite_conn _ _) as [e | [conn protocol]]; [reflexivity|].
  unfold bind, lift, trace. simpl.
  now destruct (read_sql_dispatch rt conn protocol queries pq a).
Qed.

Lemma outcome_read_sql_single rt a c :
  ra_conn a = Single c ->
  outcome (read_sql rt a)
  = match plan_queries (unwrap_single (ra_query a)) (ra_partition_on a)
            (ra_partition_range a) (ra_partition_num a) with
    | inl e => inl e
    | inr (queries, pq) =>
        match rewrite_conn (ConnStr (py_str c)) (ra_protocol a) with
        | inl e => inl e
        | inr (conn, protocol) =>
            outcome (read_sql_dispatch rt conn protocol queries pq a)
        end
    end.
Proof.
  intros H. rewrite (read_sql_single rt a c H).
  destruct (plan_queries _ _ _ _) as [e | [queries pq]]; [reflexivity|].
  destruct (rewrite_conn _ _) as [e | [conn protocol]]; [reflexivity|].
  unfold bind, lift, outcome. simpl.
  now destruct (read_sql_dispatch rt conn protocol queries pq a).
Qed.

Lemma outcome_read_sql_plan_error rt a c e :
  ra_conn a = Single c ->
  plan_queries (unwrap_single (ra_query a)) (ra_partition_on a)
    (ra_partition_range a) (ra_partition_num a) = inl e ->
  read_sql rt a = ([], inl e).
Proof.
  intros H E. rewrite (read_sql_single rt a c H), E. reflexivity.
Qed.

(* ------------------------------------------------------------------ *)
(** ** [rewrite_conn] *)

Example rewrite_conn_redshift :
  rewrite_conn (ConnStr "redshift://u:p@h:5439/db") None
  = inr ("postgresql://u:p@h:5439/db", Cursor).
Proof. reflexivity. Qed.

Example rewrite_conn_plain :
  rewrite_conn (ConnStr "sqlite:///tmp/x.db") None
  = inr ("sqlite:///tmp/x.db", Binary).
Proof. reflexivity. Qed.

Lemma rewrite_conn_explicit (c : conn_value) (p : Protocol) :
  rewrite_conn c (Some p) = inr (py_str c, p).
Proof. reflexivity. Qed.

(** With no protocol given, on a string [backend:details]. *)
Lemma rewrite_conn_split (c : conn_value) (backend details : string) :
  py_str c = backend ++ ":" ++ details ->
  PyStr.contains ":" backend = false ->
  rewrite_conn c None
  = if PyStr.contains "redshift" backend then
      inr ("postgresql:" ++ details, Cursor)
    else if PyStr.contains "clickhouse" backend then
      inr ("mysql:" ++ details, Text)
    else inr (py_str c, Binary).
Proof.
  intros E H. unfold rewrite_conn. rewrite E.
  change (backend ++ ":" ++ details) with (backend ++ String ":" details).
  rewrite PyStrFacts.app_not_empty.
  unfold PyStr.split1. rewrite (PyStrFacts.cut_app _ _ H). reflexivity.
Qed.

(** A non-empty string without a colon cannot be unpacked into backend
    and details. *)
Lemma rewrite_conn_no_colon (c : conn_value) :
  py_str c <> "" ->
  PyStr.contains ":" (py_str c) = false ->
  rewrite_conn c None
  = inl (ValueError "not enough values to unpack (expected 2, got 1)").
Proof.
  intros Hne H. unfold rewrite_conn.
  apply String.eqb_neq in Hne. rewrite Hne.
  unfold PyStr.split1. now rewrite (PyStrFacts.cut_none _ H).
Qed.

(** C8, as the code has it: with no protocol given, a connection string
    [backend:details] whose backend contains "redshift" becomes
    [postgresql:details] with protocol cursor; otherwise, one whose
    backend contains "clickhouse" becomes [mysql:details] with protocol
    text; otherwise the string is returned unchanged with protocol
    binary, as is the empty string.  With a protocol given, the string
    and the protocol are returned unchanged. *)
Theorem rewrite_conn_cases (c : conn_value) (backend details : string) :
  py_str c = backend ++ ":" ++ details ->
  PyStr.contains ":" backend = false ->
  (PyStr.contains "redshift" backend = true ->
   rewrite_conn c None = inr ("postgresql:" ++ details, Cursor))
  /\ (PyStr.contains "redshift" backend = false ->
      PyStr.contains "clickhouse" backend = true ->
      rewrite_conn c None = inr ("mysql:" ++ details, Text))
  /\ (PyStr.contains "redshift" backend = false ->
      PyStr.contains "clickhouse" backend = false ->
      rewrite_conn c None = inr (py_str c, Binary))
  /\ rewrite_conn (ConnStr "") None = inr ("", Binary)
  /\ (forall c' p, rewrite_conn c' (Some p) = inr (py_str c', p)).
Proof.
  intros E H. rewrite (rewrite_conn_split c backend details E H).
  repeat split.
  - now intros ->.
  - now intros -> ->.
  - now intros -> ->.
Qed.

Lemma rewrite_conn_cases_witness :
  rewrite_conn (ConnStr "redshift://u:p@h:5439/db") None
  = inr ("postgresql://u:p@h:5439/db", Cursor)
  /\ rewrite_conn (ConnStr "clickhouse://u:p@h:9000/db") None
     = inr ("mysql://u:p@h:9000/db", Text)
  /\ rewrite_conn (ConnObj {| connection := "mssql://u:p@h:1433/db" |}) None
     = inr ("mssql://u:p@h:1433/db", Binary).
Proof.
  split; [|split].
  - exact (proj1 (rewrite_conn_cases (ConnStr "redshift://u:p@h:5439/db")
                    "redshift" "//u:p@h:5439/db" eq_refl eq_refl) eq_refl).
  - exact (proj1 (proj2 (rewrite_conn_cases (ConnStr "clickhouse://u:p@h:9000/db")
                           "clickhouse" "//u:p@h:9000/db" eq_refl eq_refl))
             eq_refl eq_refl).
  - exact (proj1 (proj2 (proj2
             (rewrite_conn_cases (ConnObj {| connection := "mssql://u:p@h:1433/db" |})
                "mssql" "//u:p@h:1433/db" eq_refl eq_refl)))
             eq_refl eq_refl).
Defined.

(** C8 as stated fails: a string without a colon is not returned with
    protocol binary but raises, and a backend that contains both
    "clickhouse" and "redshift" is not rewritten to mysql/text. *)
Lemma rewrite_conn_not_total :
  PyStr.contains "redshift" "sqlite" = false
  /\ PyStr.contains "clickhouse" "sqlite" = false
  /\ rewrite_conn (ConnStr "sqlite") None
     = inl (ValueError "not enough values to unpack (expected 2, got 1)")
  /\ rewrite_conn (ConnStr "sqlite") None <> inr ("sqlite", Binary)
  /\ PyStr.contains "clickhouse" "clickhouse+redshift" = true
  /\ rewrite_conn (ConnStr "clickhouse+redshift://h/db") None
     = inr ("postgresql://h/db", Cursor)
  /\ rewrite_conn (ConnStr "clickhouse+redshift://h/db") None
     <> inr ("mysql://h/db", Text).
Proof. repeat split; try reflexivity; discriminate. Qed.

(* ------------------------------------------------------------------ *)
(** ** What [read_sql] and [get_meta] hand to the engine *)

Lemma read_sql_dispatch_call rt conn protocol queries pq a call :
  In (EvReadSql call) (trace (read_sql_dispatch rt conn protocol queries pq a)) ->
  rc_conn call = conn /\ rc_protocol call = protocol
  /\ rc_queries call = queries /\ rc_partition_query call = pq.
Proof.
  rewrite trace_read_sql_dispatch.
  destruct (engine_format _) as [[module fmt]|]; [|contradiction].
  destruct (has_module rt module); [|contradiction].
  intros [H | []]. injection H as <-. now repeat split.
Qed.

Lemma trace_get_meta rt c query protocol :
  trace (get_meta rt c query protocol)
  = match rewrite_conn c protocol with
    | inl _ => []
    | inr (conn, p) => [EvGetMeta conn p query]
    end.
Proof.
  unfold get_meta.
  destruct (rewrite_conn c protocol) as [e | [conn p]]; [reflexivity|].
  unfold lift, bind at 1. cbv iota beta.
  pose proof (trace_native_then (EvGetMeta conn p query)
                (native_get_meta rt conn p query)
                (reconstruct_pandas rt) (trace_reconstruct_pandas rt)) as H.
  unfold trace in *.
  destruct (bind _ _) as [t r]. simpl in *. now subst.
Qed.

(** C6, as the code has it: when no protocol is given and the backend of
    the connection string contains neither "redshift" nor "clickhouse",
    [get_meta] calls the engine with protocol binary; every engine call
    made by [read_sql] on a single connection carries protocol binary,
    and the call is made whenever the query arguments are accepted and
    the module of the return type can be imported. *)
Theorem default_protocol_is_binary rt (c : conn_value) (backend details : string)
    (a : read_sql_args) (query : string) :
  py_str c = backend ++ ":" ++ details ->
  PyStr.contains ":" backend = false ->
  PyStr.contains "redshift" backend = false ->
  PyStr.contains "clickhouse" backend = false ->
  ra_conn a = Single c ->
  ra_protocol a = None ->
  trace (get_meta rt c query None) = [EvGetMeta (py_str c) Binary query]
  /\ (forall call, In (EvReadSql call) (trace (read_sql rt a)) ->
      rc_protocol call = Binary /\ rc_conn call = py_str c)
  /\ (forall queries pq module fmt,
      plan_queries (unwrap_single (ra_query a)) (ra_partition_on a)
        (ra_partition_range a) (ra_partition_num a) = inr (queries, pq) ->
      engine_format (ra_return_type a) = Some (module, fmt) ->
      has_module rt module = true ->
      trace (read_sql rt a)
      = [EvReadSql {| rc_conn := py_str c; rc_return_type := fmt;
                      rc_queries := queries; rc_protocol := Binary;
                      rc_partition_query := pq |}]).
Proof.
  intros E Hc Hr Hk Ha Hp.
  assert (R : rewrite_conn c None = inr (py_str c, Binary)).
  { rewrite (rewrite_conn_split c backend details E Hc), Hr, Hk. reflexivity. }
  assert (R' : rewrite_conn (ConnStr (py_str c)) None = inr (py_str c, Binary)).
  { rewrite (rewrite_conn_split (ConnStr (py_str c)) backend details E Hc), Hr, Hk.
    reflexivity. }
  split; [|split].
  - now rewrite trace_get_meta, R.
  - intros call. rewrite (trace_read_sql_single rt a c Ha), Hp, R'.
    destruct (plan_queries _ _ _ _) as [e | [queries pq]]; [contradiction|].
    intros H. apply read_sql_dispatch_call in H. tauto.
  - intros queries pq module fmt Hplan Hfmt Hmod.
    rewrite (trace_read_sql_single rt a c Ha), Hp, R', Hplan.
    now rewrite trace_read_sql_dispatch, Hfmt, Hmod.
Qed.

Lemma default_protocol_is_binary_witness :
  trace (get_meta demo_runtime (ConnStr "postgresql://u:p@h:5432/db") "SELECT 1" None)
  = [EvGetMeta "postgresql://u:p@h:5432/db" Binary "SELECT 1"]
  /\ trace (read_sql demo_runtime
              (plain_call (Single (ConnStr "postgresql://u:p@h:5432/db"))
                 (QStr "SELECT 1")))
     = [EvReadSql {| rc_conn := "postgresql://u:p@h:5432/db";
                     rc_return_type := "pandas";
                     rc_queries := Some ["SELECT 1"];
                     rc_protocol := Binary;
                     rc_partition_query := None |}].
Proof.
  destruct (default_protocol_is_binary demo_runtime
              (ConnStr "postgresql://u:p@h:5432/db") "postgresql"
              "//u:p@h:5432/db"
              (plain_call (Single (ConnStr "postgresql://u:p@h:5432/db"))
                 (QStr "SELECT 1"))
              "SELECT 1" eq_refl eq_refl eq_refl eq_refl eq_refl eq_refl)
    as [H1 [_ H3]].
  split.
  - exact H1.
  - exact (H3 (Some ["SELECT 1"]) None "pandas" "pandas" eq_refl eq_refl eq_refl).
Defined.

(** C6 as stated fails: with no protocol given, a redshift connection is
    run with protocol cursor and a clickhouse connection with text. *)
Lemma default_protocol_not_always_binary :
  trace (get_meta demo_runtime (ConnStr "redshift://u:p@h:5439/db") "SELECT 1" None)
  = [EvGetMeta "postgresql://u:p@h:5439/db" Cursor "SELECT 1"]
  /\ trace (read_sql demo_runtime
              (plain_call (Single (ConnStr "clickhouse://u:p@h:9000/db"))
                 (QStr "SELECT 1")))
     = [EvReadSql {| rc_conn := "mysql://u:p@h:9000/db";
                     rc_return_type := "pandas";
                     rc_queries := Some ["SELECT 1"];
                     rc_protocol := Text;
                     rc_partition_query := None |}].
Proof. split; reflexivity. Qed.

(* ------------------------------------------------------------------ *)
(** ** Query lists and partitioning *)

Lemma unwrap_single_list (qs : list string) :
  List.length qs <> 1%nat -> unwrap_single (QList qs) = QList qs.
Proof.
  destruct qs as [|q [|q' qs']]; simpl; intros H;
    [reflexivity | now destruct H | reflexivity].
Qed.

(** C3, as the code has it: a call that gives a list of queries of any
    length other than one together with [partition_on] raises before any
    native call: [ValueError] on a single connection, [AssertionError]
    on a dict of connections. *)
Theorem partition_on_query_list_rejected rt (a : read_sql_args)
    (qs : list string) (col : string) :
  ra_query a = QList qs ->
  List.length qs <> 1%nat ->
  ra_partition_on a = Some col ->
  read_sql rt a
  = ([], inl match ra_conn a with
             | Single _ => ValueError msg_multi_partition
             | Federated _ => AssertionError msg_fed_partition
             end).
Proof.
  intros Hq Hlen Hp.
  destruct (ra_conn a) as [c | d] eqn:Hc.
  - apply (outcome_read_sql_plan_error rt a c _ Hc).
    now rewrite Hq, (unwrap_single_list qs Hlen), Hp.
  - unfold read_sql. rewrite Hc, Hq, (unwrap_single_list qs Hlen).
    unfold read_sql_federated. now rewrite Hp.
Qed.

Lemma partition_on_query_list_rejected_witness :
  read_sql demo_runtime call_list_and_partition
  = ([], inl (ValueError "Partition on multiple queries is not supported.")).
Proof.
  apply (partition_on_query_list_rejected demo_runtime call_list_and_partition
           ["SELECT * FROM t WHERE id <= 10"; "SELECT * FROM t WHERE id > 10"]
           "id" eq_refl).
  - simpl. lia.
  - reflexivity.
Defined.

(** C3 as stated fails: a one-element list with [partition_on] is not
    rejected; the engine is called with a partition spec. *)
Lemma partition_on_singleton_list_accepted :
  raises (read_sql demo_runtime call_singleton_and_partition) = false
  /\ trace (read_sql demo_runtime call_singleton_and_partition)
     = [EvReadSql {| rc_conn := "postgresql://u:p@h:5432/db";
                     rc_return_type := "pandas";
                     rc_queries := None;
                     rc_protocol := Binary;
                     rc_partition_query :=
                       Some {| pq_query := "SELECT * FROM t";
                               pq_column := "id";
                               pq_min := Some 1%Z; pq_max := Some 100%Z;
                               pq_num := Some 4%Z |} |}].
Proof. split; reflexivity. Qed.

(** C4: on a dict of connections, a call that gives [partition_on] or
    [protocol] fails an assertion before any native call, so the
    federated query is never run. *)
Theorem federated_rejects_partition_and_protocol rt (a : read_sql_args)
    (d : list (string * conn_value)) :
  ra_conn a = Federated d ->
  ra_partition_on a <> None \/ ra_protocol a <> None ->
  trace (read_sql rt a) = []
  /\ exists msg, outcome (read_sql rt a) = inl (AssertionError msg).
Proof.
  intros Hc H. unfold read_sql. rewrite Hc. unfold read_sql_federated.
  destruct (ra_partition_on a) as [col|]; [simpl; eauto|].
  destruct (unwrap_single (ra_query a)); try (simpl; eauto; fail).
  destruct (ra_protocol a) as [p|]; [simpl; eauto|].
  destruct H as [H | H]; now destruct H.
Qed.

Lemma federated_rejects_partition_and_protocol_witness :
  trace (read_sql demo_runtime call_federated_protocol) = []
  /\ exists msg,
      outcome (read_sql demo_runtime call_federated_protocol)
      = inl (AssertionError msg).
Proof.
  apply (federated_rejects_partition_and_protocol demo_runtime
           call_federated_protocol _ eq_refl).
  right. simpl. discriminate.
Defined.

(** C5, as the code has it: on a single connection, a list of queries of
    any length other than one, given without [partition_on], reaches the
    engine as [queries], in the given order, each with one ending
    semicolon removed, and with no partition spec; the engine is called
    once the connection string is accepted and the module of the return
    type can be imported. *)
Theorem query_list_handed_over rt (a : read_sql_args) (c : conn_value)
    (qs : list string) :
  ra_conn a = Single c ->
  ra_query a = QList qs ->
  List.length qs <> 1%nat ->
  ra_partition_on a = None ->
  (forall call, In (EvReadSql call) (trace (read_sql rt a)) ->
     rc_queries call = Some (map remove_ending_semicolon qs)
     /\ rc_partition_query call = None)
  /\ (forall conn protocol module fmt,
      rewrite_conn (ConnStr (py_str c)) (ra_protocol a) = inr (conn, protocol) ->
      engine_format (ra_return_type a) = Some (module, fmt) ->
      has_module rt module = true ->
      trace (read_sql rt a)
      = [EvReadSql {| rc_conn := conn; rc_return_type := fmt;
                      rc_queries := Some (map remove_ending_semicolon qs);
                      rc_protocol := protocol;
                      rc_partition_query := None |}]).
Proof.
  intros Hc Hq Hlen Hp.
  assert (P : plan_queries (unwrap_single (ra_query a)) (ra_partition_on a)
                (ra_partition_range a) (ra_partition_num a)
              = inr (Some (map remove_ending_semicolon qs), None)).
  { now rewrite Hq, (unwrap_single_list qs Hlen), Hp. }
  split.
  - intros call. rewrite (trace_read_sql_single rt a c Hc), P.
    destruct (rewrite_conn _ _) as [e | [conn protocol]]; [contradiction|].
    intros H. apply read_sql_dispatch_call in H. tauto.
  - intros conn protocol module fmt R Hfmt Hmod.
    rewrite (trace_read_sql_single rt a c Hc), P, R.
    now rewrite trace_read_sql_dispatch, Hfmt, Hmod.
Qed.

Lemma query_list_handed_over_witness :
  trace (read_sql demo_runtime
           (plain_call (Single (ConnStr "postgresql://u:p@h:5432/db"))
              (QList ["SELECT * FROM t WHERE id <= 10;";
                      "SELECT * FROM t WHERE id > 10"])))
  = [EvReadSql {| rc_conn := "postgresql://u:p@h:5432/db";
                  rc_return_type := "pandas";
                  rc_queries := Some ["SELECT * FROM t WHERE id <= 10";
                                      "SELECT * FROM t WHERE id > 10"];
                  rc_protocol := Binary;
                  rc_partition_query := None |}].
Proof.
  refine (proj2 (query_list_handed_over demo_runtime
                   (plain_call (Single (ConnStr "postgresql://u:p@h:5432/db"))
                      (QList ["SELECT * FROM t WHERE id <= 10;";
                              "SELECT * FROM t WHERE id > 10"]))
                   (ConnStr "postgresql://u:p@h:5432/db")
                   ["SELECT * FROM t WHERE id <= 10;";
                    "SELECT * FROM t WHERE id > 10"]
                   eq_refl eq_refl _ eq_refl)
            "postgresql://u:p@h:5432/db" Binary "pandas" "pandas"
            eq_refl eq_refl eq_refl).
  simpl. lia.
Defined.

(** C5 as stated fails: the listed queries are not handed over verbatim;
    an ending semicolon is removed from each. *)
Lemma query_list_not_verbatim :
  read_sql_calls
    (trace (read_sql demo_runtime
              (plain_call (Single (ConnStr "postgresql://u:p@h:5432/db"))
                 (QList ["SELECT 1;"; "SELECT 2;"]))))
  = [{| rc_conn := "postgresql://u:p@h:5432/db";
        rc_return_type := "pandas";
        rc_queries := Some ["SELECT 1"; "SELECT 2"];
        rc_protocol := Binary;
        rc_partition_query := None |}]
  /\ Some ["SELECT 1"; "SELECT 2"] <> Some ["SELECT 1;"; "SELECT 2;"].
Proof. split; [reflexivity | discriminate]. Qed.

(* ------------------------------------------------------------------ *)
(** ** One-element query lists and ending semicolons *)

(** A one-element list [[q]] is run as the string
    [remove_ending_semicolon q]. *)
Lemma read_sql_singleton_list rt (a : read_sql_args) (q : string) :
  read_sql rt (with_query a (QList [q]))
  = read_sql rt (with_query a (QStr (remove_ending_semicolon q))).
Proof. reflexivity. Qed.

(** A query string matters to [read_sql] only through
    [remove_ending_semicolon]. *)
Lemma read_sql_str_ext rt (a : read_sql_args) (x y : string) :
  remove_ending_semicolon x = remove_ending_semicolon y ->
  read_sql rt (with_query a (QStr x)) = read_sql rt (with_query a (QStr y)).
Proof.
  intros H. unfold read_sql. simpl.
  destruct (ra_conn a) as [c | d].
  - unfold plan_queries. now rewrite H.
  - unfold read_sql_federated. simpl. now rewrite H.
Qed.

(** So [[q]] and [q] are run alike unless [q] ends with two semicolons. *)
Lemma read_sql_singleton_list_same rt (a : read_sql_args) (q : string) :
  PyStr.endswith (remove_ending_semicolon q) ";" = false ->
  read_sql rt (with_query a (QList [q])) = read_sql rt (with_query a (QStr q)).
Proof.
  intros H. rewrite read_sql_singleton_list. apply read_sql_str_ext.
  unfold remove_ending_semicolon at 1. now rewrite H.
Qed.

(** What the engine is asked to run for [p;;] given as a string and as a
    one-element list. *)
Lemma plan_queries_two_semicolons (p : string) range num :
  plan_queries (unwrap_single (QStr (p ++ ";;"))) None range num
  = inr (Some [p ++ ";"], None)
  /\ plan_queries (unwrap_single (QList [p ++ ";;"])) None range num
     = inr (Some [p], None).
Proof.
  destruct (remove_ending_semicolon_twice p) as [H2 H1].
  simpl. now rewrite H2, H1.
Qed.

(** C9 fails on the code: for [q = "SELECT * FROM t;;"], the one-element
    list and the string reach the engine as different queries, both
    without and with [partition_on]. *)
Theorem singleton_list_differs_from_string :
  read_sql_calls
    (trace (read_sql demo_runtime
              (plain_call (Single (ConnStr "postgresql://u:p@h:5432/db"))
                 (QList ["SELECT * FROM t;;"]))))
  <> read_sql_calls
       (trace (read_sql demo_runtime
                 (plain_call (Single (ConnStr "postgresql://u:p@h:5432/db"))
                    (QStr "SELECT * FROM t;;"))))
  /\ option_map pq_query
       (rc_partition_query
          (hd call_none
             (read_sql_calls
                (trace (read_sql demo_runtime
                          (with_query call_singleton_and_partition
                             (QList ["SELECT * FROM t;;"])))))))
     = Some "SELECT * FROM t"
  /\ option_map pq_query
       (rc_partition_query
          (hd call_none
             (read_sql_calls
                (trace (read_sql demo_runtime
                          (with_query call_singleton_and_partition
                             (QStr "SELECT * FROM t;;")))))))
     = Some "SELECT * FROM t;".
Proof.
  split; [|split; reflexivity].
  intros H. vm_compute in H. discriminate H.
Qed.

(** C10 fails on the code: [remove_ending_semicolon] itself removes one
    semicolon, but [read_sql] applies it twice to the element of a
    one-element list, so ["SELECT 1;;"] reaches the engine with no
    semicolon left. *)
Theorem singleton_list_semicolon_removed_twice :
  remove_ending_semicolon "SELECT 1;;" = "SELECT 1;"
  /\ read_sql_calls
       (trace (read_sql demo_runtime
                 (plain_call (Single (ConnStr "postgresql://u:p@h:5432/db"))
                    (QStr "SELECT 1;;"))))
     = [{| rc_conn := "postgresql://u:p@h:5432/db"; rc_return_type := "pandas";
           rc_queries := Some ["SELECT 1;"]; rc_protocol := Binary;
           rc_partition_query := None |}]
  /\ read_sql_calls
       (trace (read_sql demo_runtime
                 (plain_call (Single (ConnStr "postgresql://u:p@h:5432/db"))
                    (QList ["SELECT 1;;"]))))
     = [{| rc_conn := "postgresql://u:p@h:5432/db"; rc_return_type := "pandas";
           rc_queries := Some ["SELECT 1"]; rc_protocol := Binary;
           rc_partition_query := None |}]
  /\ trace (read_sql demo_runtime
              (plain_call (Federated [("db1", ConnStr "postgresql://u:p@h:5432/db")])
                 (QList ["SELECT 1;;"])))
     = [EvReadSql2 "SELECT 1" [("db1", "postgresql://u:p@h:5432/db")]].
Proof. repeat split; reflexivity. Qed.

(* ------------------------------------------------------------------ *)
(** ** Empty results *)

(** [reconstruct_arrow] on a result without column names. *)
Lemma reconstruct_arrow_no_names rt ptrs :
  has_module rt "pyarrow" = true ->
  reconstruct_arrow rt (PArrow ([], ptrs)) = ([], inr (TableFromArrays [])).
Proof. intros H. unfold reconstruct_arrow, py_import. now rewrite H. Qed.

(** [reconstruct_pandas] on a result of one block and no rows. *)
Example reconstruct_pandas_no_rows :
  reconstruct_pandas demo_runtime
    (PDataframe {| di_data := [BArray (NdBuffer [2; 0]%nat 4096)];
                   di_headers := ["id"; "amount"];
                   di_block_infos := [{| dt := 0; cids := [0; 1]%Z |}] |})
  = ([], inr {| df_blocks :=
                  [make_block (RawValues (BArray (NdBuffer [2; 0]%nat 4096)))
                     (PlaceCids [0; 1]%Z)];
                df_headers := ["id"; "amount"];
                df_nrows := 0 |}).
Proof. reflexivity. Qed.

(** C7 fails on the code: on a result without data blocks (no columns),
    [reconstruct_pandas] raises at [data[0]] instead of returning a
    frame. *)
Theorem reconstruct_pandas_no_columns rt (headers : list string)
    (block_infos : list block_info) :
  reconstruct_pandas rt
    (PDataframe {| di_data := []; di_headers := headers;
                   di_block_infos := block_infos |})
  = ([], inl (if has_module rt "pandas"
              then IndexError "list index out of range"
              else ModuleNotFoundError "pandas")).
Proof.
  unfold reconstruct_pandas, py_import.
  now destruct (has_module rt "pandas").
Qed.

(* ------------------------------------------------------------------ *)
(** ** The partitioner *)

Module PartitionerFacts.
Import Partitioner.
Local Open Scope Z_scope.

Lemma length_ordinals (num : Z) : List.length (ordinals num) = Z.to_nat num.
Proof. unfold ordinals. now rewrite length_map, length_seq. Qed.

Lemma length_ranges (min max num : Z) :
  List.length (ranges min max num) = Z.to_nat num.
Proof. unfold ranges. now rewrite length_map, length_ordinals. Qed.

(** Consecutive ranges meet: partition [i] ends strictly below the
    bound at which partition [i+1] starts. *)
Lemma ranges_contiguous (min max num i : Z) :
  0 <= i -> i + 1 < num ->
  rp_upper (range_of min max num i)
  = Below (min + (i + 1) * width min max num)
  /\ rp_lower (range_of min max num (i + 1))
     = Some (min + (i + 1) * width min max num).
Proof.
  intros H0 H1. unfold range_of. simpl.
  destruct (Z.eqb_spec i (num - 1)); [lia|].
  destruct (Z.eqb_spec (i + 1) 0); [lia|].
  now split.
Qed.

(** The first range has no lower bound and the last one ends at
    [max], inclusive. *)
Lemma ranges_ends (min max num : Z) :
  1 < num ->
  rp_lower (range_of min max num 0) = None
  /\ rp_upper (range_of min max num (num - 1)) = AtMost max.
Proof.
  intros H. unfold range_of. simpl. now rewrite Z.eqb_refl.
Qed.

(** With a valid range, [num >= 2] gives [num] sub-queries. *)
Lemma partition_length discover (s : PartitionSpec) (lo hi : Z) :
  ps_min s = Some lo -> ps_max s = Some hi -> lo <= hi -> 2 <= ps_num s ->
  exists sqs, partition discover s = inr sqs
              /\ List.length sqs = Z.to_nat (ps_num s).
Proof.
  intros Hlo Hhi Hle Hn. unfold partition. rewrite Hlo, Hhi.
  destruct (Z.ltb_spec (ps_num s) 1); [lia|].
  destruct (Z.eqb_spec (ps_num s) 1); [lia|].
  destruct (Z.ltb_spec hi lo); [lia|].
  eexists. split; [reflexivity|].
  now rewrite length_map, length_ordinals.
Qed.

(** With [num = 1] the partitioner returns the query itself. *)
Lemma partition_one discover (s : PartitionSpec) :
  ps_num s = 1 ->
  partition discover s = inr [{| sq_sql := ps_query s; sq_index := 0 |}].
Proof. intros H. unfold partition. now rewrite H. Qed.

End PartitionerFacts.

(** The outcome of the dispatch depends on the queries and the partition
    spec only through what the engine answers. *)
Lemma outcome_read_sql_dispatch_ext rt conn protocol qs1 pq1 qs2 pq2 a1 a2 :
  (forall fmt,
     native_read_sql rt {| rc_conn := conn; rc_return_type := fmt;
                           rc_queries := qs1; rc_protocol := protocol;
                           rc_partition_query := pq1 |}
     = native_read_sql rt {| rc_conn := conn; rc_return_type := fmt;
                             rc_queries := qs2; rc_protocol := protocol;
                             rc_partition_query := pq2 |}) ->
  ra_return_type a1 = ra_return_type a2 ->
  ra_index_col a1 = ra_index_col a2 ->
  outcome (read_sql_dispatch rt conn protocol qs1 pq1 a1)
  = outcome (read_sql_dispatch rt conn protocol qs2 pq2 a2).
Proof.
  intros Hn Hr Hi. unfold read_sql_dispatch. rewrite <- Hr.
  assert (Fp : forall res, finish_pandas rt a1 res = finish_pandas rt a2 res).
  { intros res. unfold finish_pandas. now rewrite Hr, Hi. }
  assert (Fa : forall res, finish_arrow rt a1 res = finish_arrow rt a2 res).
  { intros res. unfold finish_arrow. now rewrite Hr. }
  destruct (str_in (ra_return_type a1) ["modin"; "dask"; "pandas"]).
  - rewrite !outcome_bind.
    destruct (outcome (try_import_module rt "pandas")); [reflexivity|].
    cbv beta iota. unfold native. cbn [outcome snd].
    rewrite Hn. destruct (native_read_sql rt _); [reflexivity | now rewrite Fp].
  - destruct (str_in (ra_return_type a1) ["arrow"; "arrow2"; "polars"; "polars2"]);
      [|reflexivity].
    rewrite !outcome_bind.
    destruct (outcome (try_import_module rt "pyarrow")); [reflexivity|].
    cbv beta iota. unfold native. cbn [outcome snd].
    rewrite Hn. destruct (native_read_sql rt _); [reflexivity | now rewrite Fa].
Qed.

(** C1: on the scenario of the spec, the partitioner returns exactly
    four sub-queries, with the predicates id < 26, 26 <= id < 51,
    51 <= id < 76 and 76 <= id <= 100: contiguous ranges of width
    ceil((100 - 1 + 1) / 4) = 25, the first one unbounded below. *)
Theorem partition_sql_scenario (b : Partitioner.Backend) (conn : conn_value) :
  outcome (partition_sql (Partitioner.runtime_of b) conn
             "SELECT id, amount FROM t" "id" 4 (Some (1, 100)%Z))
  = inr ["SELECT * FROM (SELECT id, amount FROM t) AS t WHERE t.id < 26";
         "SELECT * FROM (SELECT id, amount FROM t) AS t WHERE t.id >= 26 AND t.id < 51";
         "SELECT * FROM (SELECT id, amount FROM t) AS t WHERE t.id >= 51 AND t.id < 76";
         "SELECT * FROM (SELECT id, amount FROM t) AS t WHERE t.id >= 76 AND t.id <= 100"]
  /\ Partitioner.ranges 1 100 4
     = [{| Partitioner.rp_lower := None;
           Partitioner.rp_upper := Partitioner.Below 26 |};
        {| Partitioner.rp_lower := Some 26%Z;
           Partitioner.rp_upper := Partitioner.Below 51 |};
        {| Partitioner.rp_lower := Some 51%Z;
           Partitioner.rp_upper := Partitioner.Below 76 |};
        {| Partitioner.rp_lower := Some 76%Z;
           Partitioner.rp_upper := Partitioner.AtMost 100 |}]
  /\ Partitioner.width 1 100 4 = 25%Z.
Proof. repeat split. Qed.

(** C2: with [num = 1] the partitioner returns the query itself as the
    only sub-query, whatever the column and the range; and a call of
    [read_sql] that partitions a query into one part ends exactly as the
    call that runs the query unpartitioned. *)
Theorem single_partition_is_identity (b : Partitioner.Backend)
    (conn : conn_value) (q col : string) (range : option (Z * Z)) :
  outcome (partition_sql (Partitioner.runtime_of b) conn q col 1 range)
  = inr [q]
  /\ (forall (a : read_sql_args) (c : conn_value),
      ra_conn a = Single c ->
      ra_query a = QStr q ->
      outcome (read_sql (Partitioner.runtime_of b)
                 (with_partition a (Some col) range (Some 1%Z)))
      = outcome (read_sql (Partitioner.runtime_of b)
                   (with_partition a None None None))).
Proof.
  split; [reflexivity|].
  intros a c Hc Hq.
  rewrite (outcome_read_sql_single _ (with_partition a (Some col) range (Some 1%Z)) c Hc).
  rewrite (outcome_read_sql_single _ (with_partition a None None None) c Hc).
  cbn [with_partition ra_query ra_partition_on ra_partition_range
       ra_partition_num ra_protocol].
  rewrite Hq. cbn [unwrap_single plan_queries].
  destruct (rewrite_conn (ConnStr (py_str c)) (ra_protocol a))
    as [e | [conn' protocol]]; [reflexivity|].
  now apply outcome_read_sql_dispatch_ext.
Qed.

Lemma single_partition_is_identity_witness :
  outcome (read_sql (Partitioner.runtime_of demo_backend)
             (with_partition
                (plain_call (Single (ConnStr "postgresql://u:p@h:5432/db"))
                   (QStr "SELECT id, amount FROM t"))
                (Some "id") (Some (1, 100)%Z) (Some 1%Z)))
  = outcome (read_sql (Partitioner.runtime_of demo_backend)
               (with_partition
                  (plain_call (Single (ConnStr "postgresql://u:p@h:5432/db"))
                     (QStr "SELECT id, amount FROM t"))
                  None None None)).
Proof.
  exact (proj2 (single_partition_is_identity demo_backend
                  (ConnStr "postgresql://u:p@h:5432/db")
                  "SELECT id, amount FROM t" "id" (Some (1, 100)%Z))
           (plain_call (Single (ConnStr "postgresql://u:p@h:5432/db"))
              (QStr "SELECT id, amount FROM t"))
           (ConnStr "postgresql://u:p@h:5432/db") eq_refl eq_refl).
Defined.

(* ================================================================== *)
(** * Further properties of the binding *)

(* ------------------------------------------------------------------ *)
(** ** Strings, for any separator *)

Module PyStrSep.
Import PyStr.

Lemma prefix_char (sep c : ascii) (t : string) :
  String.prefix (String sep "") (String c t) = Ascii.eqb c sep.
Proof.
  simpl. destruct (ascii_dec sep c) as [-> | H].
  - rewrite Ascii.eqb_refl. now destruct t.
  - symmetry. apply Ascii.eqb_neq. congruence.
Qed.

(** [sep in s] in terms of [cut]. *)
Lemma contains_cut (sep : ascii) (s : string) :
  contains (String sep "") s = true <-> cut sep s <> None.
Proof.
  induction s as [|c t IH].
  - simpl. split; [discriminate | congruence].
  - change (contains (String sep "") (String c t))
      with (String.prefix (String sep "") (String c t)
            || contains (String sep "") t).
    rewrite prefix_char. simpl cut.
    destruct (Ascii.eqb c sep); simpl.
    + split; [discriminate | reflexivity].
    + rewrite IH. destruct (cut sep t) as [[a b]|]; split; congruence.
Qed.




Lemma length_drop_last (s : string) :
  String.length (drop_last s) = Nat.pred (String.length s).
Proof.
  induction s as [|c t IH]; [reflexivity|].
  simpl. destruct t as [|c' t']; [reflexivity|].
  simpl String.length in *. now rewrite IH.
Qed.

End PyStrSep.

(** X1. [remove_ending_semicolon] removes the last character of a string
    that ends with a semicolon and leaves any other string as it is; the
    result is shorter by at most one character. *)
Theorem remove_ending_semicolon_char (q : string) :
  ((exists p, q = p ++ ";" /\ remove_ending_semicolon q = p)
   \/ ((forall p, q <> p ++ ";") /\ remove_ending_semicolon q = q))
  /\ (String.length q - 1 <= String.length (remove_ending_semicolon q)
      <= String.length q)%nat.
Proof.
  split.
  - destruct (PyStr.endswith q ";") eqn:E.
    + left. destruct (PyStrFacts.endswith_char_inv _ _ E) as [p ->].
      exists p. split; [reflexivity | apply remove_ending_semicolon_ends].
    + right. assert (N : forall p, q <> p ++ ";").
      { intros p ->. now rewrite PyStrFacts.endswith_app_char in E. }
      split; [exact N | now apply remove_ending_semicolon_other].
  - unfold remove_ending_semicolon.
    destruct (PyStr.endswith q ";"); [|lia].
    rewrite PyStrSep.length_drop_last. lia.
Qed.

(** X2. With no protocol given, [rewrite_conn] raises exactly on the
    non-empty strings that contain no colon; with a protocol given it
    never raises. *)
Theorem rewrite_conn_raises_iff (c : conn_value) :
  ((exists e, rewrite_conn c None = inl e)
   <-> (py_str c <> "" /\ PyStr.contains ":" (py_str c) = false))
  /\ (forall p e, rewrite_conn c (Some p) <> inl e).
Proof.
  split; [|discriminate].
  split.
  - intros [e H]. unfold rewrite_conn in H.
    destruct (String.eqb_spec (py_str c) "") as [E0 | Hne].
    + rewrite E0 in H. simpl in H. discriminate.
    + split; [exact Hne|].
      destruct (PyStr.contains ":" (py_str c)) eqn:Hc; [|reflexivity].
      apply PyStrSep.contains_cut in Hc. unfold PyStr.split1 in H.
      destruct (PyStr.cut ":" (py_str c)) as [[a b]|]; [|congruence].
      simpl in H.
      destruct (PyStr.contains "redshift" a); [discriminate|].
      destruct (PyStr.contains "clickhouse" a); discriminate.
  - intros [Hne Hc]. eexists. now apply rewrite_conn_no_colon.
Qed.

Lemma rewrite_conn_raises_iff_witness :
  exists e, rewrite_conn (ConnStr "localhost") None = inl e.
Proof.
  apply (proj2 (proj1 (rewrite_conn_raises_iff (ConnStr "localhost")))).
  split; [discriminate | reflexivity].
Defined.



(* ------------------------------------------------------------------ *)
(** ** Federated calls *)

Lemma read_sql_federated_run rt conns (q : string) (a : read_sql_args) :
  ra_partition_on a = None ->
  ra_protocol a = None ->
  read_sql_federated rt conns (QStr q) a
  = (result <- native (EvReadSql2 (remove_ending_semicolon q) conns)
                 (native_read_sql2 rt (remove_ending_semicolon q) conns);;
     t <- reconstruct_arrow rt result;;
     let df := if String.eqb (ra_return_type a) "pandas"
               then FToPandas t else FArrow t in
     if String.eqb (ra_return_type a) "polars" then
       try_import_module rt "polars";;;
       ret (FPolars t)
     else ret df).
Proof.
  intros Hp Hr. unfold read_sql_federated. rewrite Hp, Hr.
  unfold py_assert, ret, bind at 1. cbv iota beta.
  now destruct (bind _ _).
Qed.

Lemma trace_read_sql_federated rt conns (query : query_arg) (a : read_sql_args) :
  trace (read_sql_federated rt conns query a)
  = match ra_partition_on a, query, ra_protocol a with
    | None, QStr q, None => [EvReadSql2 (remove_ending_semicolon q) conns]
    | _, _, _ => []
    end.
Proof.
  destruct (ra_partition_on a) as [col|] eqn:Hp;
    [unfold read_sql_federated; now rewrite Hp|].
  destruct query as [q | qs |];
    try (unfold read_sql_federated; now rewrite Hp).
  destruct (ra_protocol a) as [p|] eqn:Hr;
    [unfold read_sql_federated; now rewrite Hp, Hr|].
  rewrite (read_sql_federated_run rt conns q a Hp Hr).
  apply trace_native_then. intros result.
  rewrite trace_bind, trace_reconstruct_arrow.
  destruct (outcome (reconstruct_arrow rt result)) as [e | t]; [reflexivity|].
  cbv beta zeta. rewrite app_nil_l.
  destruct (String.eqb (ra_return_type a) "polars");
    [|now destruct (String.eqb (ra_return_type a) "pandas")].
  rewrite trace_bind, trace_try_import_module.
  now destruct (outcome (try_import_module rt "polars")).
Qed.

(** X4. Whatever the arguments, [read_sql] makes at most one call into
    the native extension. *)
Theorem read_sql_at_most_one_native_call rt (a : read_sql_args) :
  (List.length (trace (read_sql rt a)) <= 1)%nat.
Proof.
  destruct (ra_conn a) as [c | d] eqn:Hc.
  - rewrite (trace_read_sql_single rt a c Hc).
    destruct (plan_queries _ _ _ _) as [e | [queries pq]]; [simpl; lia|].
    destruct (rewrite_conn _ _) as [e | [conn protocol]]; [simpl; lia|].
    rewrite trace_read_sql_dispatch.
    destruct (engine_format _) as [[module fmt]|]; [|simpl; lia].
    destruct (has_module rt module); simpl; lia.
  - unfold read_sql. rewrite Hc, trace_read_sql_federated.
    destruct (ra_partition_on a); [simpl; lia|].
    destruct (unwrap_single (ra_query a)); try (simpl; lia).
    destruct (ra_protocol a); simpl; lia.
Qed.

(** X5. On a dict of connections, a query string given without
    [partition_on] and [protocol] is sent to the federated engine once,
    with one ending semicolon removed, together with the connections in
    their order, each converted with [str]; this holds for every return
    type and index column. *)
Theorem federated_query_handed_over rt (a : read_sql_args)
    (d : list (string * conn_value)) (q : string) :
  ra_conn a = Federated d ->
  ra_query a = QStr q ->
  ra_partition_on a = None ->
  ra_protocol a = None ->
  exists conns,
    trace (read_sql rt a) = [EvReadSql2 (remove_ending_semicolon q) conns]
    /\ map fst conns = map fst d
    /\ map snd conns = map py_str (map snd d).
Proof.
  intros Hc Hq Hp Hr.
  exists (map (fun kv => (fst kv, py_str (snd kv))) d). split; [|split].
  - unfold read_sql. rewrite Hc, trace_read_sql_federated, Hq, Hp, Hr.
    reflexivity.
  - rewrite map_map. reflexivity.
  - rewrite !map_map. reflexivity.
Qed.

Lemma federated_query_handed_over_witness :
  exists conns,
    trace (read_sql demo_runtime
             (plain_call (Federated [("db1", ConnStr "postgresql://u:p@h1:5432/a");
                                     ("db2", ConnObj {| connection := "mysql://u:p@h2:3306/b" |})])
                (QStr "SELECT * FROM db1.t, db2.s;")))
    = [EvReadSql2 (remove_ending_semicolon "SELECT * FROM db1.t, db2.s;") conns]
    /\ map fst conns = map fst [("db1", ConnStr "postgresql://u:p@h1:5432/a");
                                ("db2", ConnObj {| connection := "mysql://u:p@h2:3306/b" |})]
    /\ map snd conns
       = map py_str (map snd [("db1", ConnStr "postgresql://u:p@h1:5432/a");
                              ("db2", ConnObj {| connection := "mysql://u:p@h2:3306/b" |})]).
Proof.
  exact (federated_query_handed_over demo_runtime
           (plain_call (Federated [("db1", ConnStr "postgresql://u:p@h1:5432/a");
                                   ("db2", ConnObj {| connection := "mysql://u:p@h2:3306/b" |})])
              (QStr "SELECT * FROM db1.t, db2.s;"))
           _ "SELECT * FROM db1.t, db2.s;" eq_refl eq_refl eq_refl eq_refl).
Defined.

Lemma federated_outcome_inv rt (a : read_sql_args)
    (d : list (string * conn_value)) (f : frame) :
  ra_conn a = Federated d ->
  outcome (read_sql rt a) = inr f ->
  exists t,
    f = if String.eqb (ra_return_type a) "polars" then FPolars t
        else if String.eqb (ra_return_type a) "pandas" then FToPandas t
        else FArrow t.
Proof.
  intros Hc. unfold read_sql. rewrite Hc.
  set (conns := map _ d).
  destruct (ra_partition_on a) as [col|] eqn:Hp;
    [unfold read_sql_federated; rewrite Hp; discriminate|].
  destruct (unwrap_single (ra_query a)) as [q | qs |];
    try (unfold read_sql_federated; rewrite Hp; discriminate).
  destruct (ra_protocol a) as [p|] eqn:Hr;
    [unfold read_sql_federated; rewrite Hp, Hr; discriminate|].
  rewrite (read_sql_federated_run rt conns q a Hp Hr).
  rewrite outcome_bind. unfold native. cbn [outcome snd].
  destruct (native_read_sql2 rt _ conns) as [e | result]; [discriminate|].
  rewrite outcome_bind.
  destruct (outcome (reconstruct_arrow rt result)) as [e | t]; [discriminate|].
  cbv beta zeta.
  destruct (String.eqb (ra_return_type a) "polars").
  - rewrite outcome_bind.
    destruct (outcome (try_import_module rt "polars")); [discriminate|].
    intros [= <-]. now exists t.
  - intros [= <-]. now exists t.
Qed.

(** X6. A federated call that returns gives a polars frame for return
    type "polars", a pandas frame for "pandas" and the arrow table itself
    for every other return type ("polars2", "modin", "dask" and unknown
    names included); the return type is never rejected and [index_col]
    is not applied. *)
Theorem federated_result_kind rt (a : read_sql_args)
    (d : list (string * conn_value)) (f : frame) :
  ra_conn a = Federated d ->
  outcome (read_sql rt a) = inr f ->
  exists t,
    f = if String.eqb (ra_return_type a) "polars" then FPolars t
        else if String.eqb (ra_return_type a) "pandas" then FToPandas t
        else FArrow t.
Proof.
  intros Hc. unfold read_sql. rewrite Hc.
  set (conns := map _ d).
  destruct (ra_partition_on a) as [col|] eqn:Hp;
    [unfold read_sql_federated; rewrite Hp; discriminate|].
  destruct (unwrap_single (ra_query a)) as [q | qs |];
    try (unfold read_sql_federated; rewrite Hp; discriminate).
  destruct (ra_protocol a) as [p|] eqn:Hr;
    [unfold read_sql_federated; rewrite Hp, Hr; discriminate|].
  rewrite (read_sql_federated_run rt conns q a Hp Hr).
  rewrite outcome_bind. unfold native. cbn [outcome snd].
  destruct (native_read_sql2 rt _ conns) as [e | result]; [discriminate|].
  rewrite outcome_bind.
  destruct (outcome (reconstruct_arrow rt result)) as [e | t]; [discriminate|].
  cbv beta zeta.
  destruct (String.eqb (ra_return_type a) "polars").
  - rewrite outcome_bind.
    destruct (outcome (try_import_module rt "polars")); [discriminate|].
    intros [= <-]. now exists t.
  - intros [= <-]. now exists t.
Qed.

Lemma federated_result_kind_witness :
  exists t,
    FArrow (TableFromBatches [RecordBatchFromArrays [ImportFromC 8192 8200] ["id"]])
    = if String.eqb "polars2" "polars" then FPolars t
      else if String.eqb "polars2" "pandas" then FToPandas t
      else FArrow t.
Proof.
  exact (federated_result_kind demo_runtime
           {| ra_conn := Federated [("db1", ConnStr "postgresql://u:p@h1:5432/a")];
              ra_query := QStr "SELECT * FROM db1.t";
              ra_return_type := "polars2"; ra_protocol := None;
              ra_partition_on := None; ra_partition_range := None;
              ra_partition_num := None; ra_index_col := Some "id" |}
           _ _ eq_refl eq_refl).
Defined.

(* ------------------------------------------------------------------ *)
(** ** Calls on a single connection *)

Lemma str_in_In (x : string) (xs : list string) :
  str_in x xs = true <-> In x xs.
Proof.
  unfold str_in. rewrite existsb_exists. split.
  - intros [y [Hy E]]. apply String.eqb_eq in E. now subst.
  - intros H. exists x. split; [exact H | apply String.eqb_refl].
Qed.


(** Every [_read_sql] call in the trace comes from the dispatch of a
    call on a single connection whose arguments were accepted. *)
Lemma read_sql_call_inv rt a call :
  In (EvReadSql call) (trace (read_sql rt a)) ->
  exists c queries pq conn protocol,
    ra_conn a = Single c
    /\ plan_queries (unwrap_single (ra_query a)) (ra_partition_on a)
         (ra_partition_range a) (ra_partition_num a) = inr (queries, pq)
    /\ rewrite_conn (ConnStr (py_str c)) (ra_protocol a) = inr (conn, protocol)
    /\ In (EvReadSql call)
          (trace (read_sql_dispatch rt conn protocol queries pq a)).
Proof.
  destruct (ra_conn a) as [c | d] eqn:Hc.
  - rewrite (trace_read_sql_single rt a c Hc).
    destruct (plan_queries _ _ _ _) as [e | [queries pq]] eqn:Hplan;
      [contradiction|].
    destruct (rewrite_conn _ _) as [e | [conn protocol]] eqn:Hrw;
      [contradiction|].
    intros H. exists c, queries, pq, conn, protocol. repeat split; trivial.
  - unfold read_sql. rewrite Hc, trace_read_sql_federated.
    destruct (ra_partition_on a); [contradiction|].
    destruct (unwrap_single (ra_query a)); try contradiction.
    destruct (ra_protocol a); [contradiction|].
    intros [H | []]. discriminate.
Qed.

Lemma read_sql_dispatch_format rt conn protocol queries pq a call :
  In (EvReadSql call) (trace (read_sql_dispatch rt conn protocol queries pq a)) ->
  exists module,
    engine_format (ra_return_type a) = Some (module, rc_return_type call)
    /\ has_module rt module = true.
Proof.
  rewrite trace_read_sql_dispatch.
  destruct (engine_format _) as [[module fmt]|]; [|contradiction].
  destruct (has_module rt module) eqn:Hm; [|contradiction].
  intros [H | []]. injection H as <-. now exists module.
Qed.

(** X7. On a single connection, a return type that is none of the seven
    known names makes [read_sql] raise without any native call; once the
    query arguments and the connection string are accepted, the
    exception is [ValueError(return_type)]. *)
Theorem unknown_return_type_rejected rt (a : read_sql_args) (c : conn_value) :
  ra_conn a = Single c ->
  str_in (ra_return_type a)
    ["pandas"; "polars"; "polars2"; "arrow"; "arrow2"; "modin"; "dask"] = false ->
  trace (read_sql rt a) = []
  /\ exists e,
      outcome (read_sql rt a) = inl e
      /\ (forall plan cp,
          plan_queries (unwrap_single (ra_query a)) (ra_partition_on a)
            (ra_partition_range a) (ra_partition_num a) = inr plan ->
          rewrite_conn (ConnStr (py_str c)) (ra_protocol a) = inr cp ->
          e = ValueError (ra_return_type a)).
Proof.
  intros Hc H.
  assert (D : forall conn protocol queries pq,
             read_sql_dispatch rt conn protocol queries pq a
             = ([], inl (ValueError (ra_return_type a)))).
  { intros. unfold read_sql_dispatch, str_in in *. simpl existsb in *.
    repeat (apply orb_false_iff in H; destruct H as [? H]).
    repeat match goal with
           | E : String.eqb _ _ = false |- _ => rewrite E; clear E
           end.
    reflexivity. }
  rewrite (trace_read_sql_single rt a c Hc), (outcome_read_sql_single rt a c Hc).
  destruct (plan_queries _ _ _ _) as [e | [queries pq]].
  - split; [reflexivity|]. exists e. split; [reflexivity|]. discriminate.
  - destruct (rewrite_conn _ _) as [e | [conn protocol]].
    + split; [reflexivity|]. exists e. split; [reflexivity|]. discriminate.
    + rewrite D. split; [reflexivity|]. eexists. split; [reflexivity|].
      reflexivity.
Qed.

Lemma unknown_return_type_rejected_witness :
  trace (read_sql demo_runtime
           {| ra_conn := Single (ConnStr "postgresql://u:p@h:5432/db");
              ra_query := QStr "SELECT 1"; ra_return_type := "numpy";
              ra_protocol := None; ra_partition_on := None;
              ra_partition_range := None; ra_partition_num := None;
              ra_index_col := None |}) = [].
Proof.
  exact (proj1 (unknown_return_type_rejected demo_runtime
                  {| ra_conn := Single (ConnStr "postgresql://u:p@h:5432/db");
                     ra_query := QStr "SELECT 1"; ra_return_type := "numpy";
                     ra_protocol := None; ra_partition_on := None;
                     ra_partition_range := None; ra_partition_num := None;
                     ra_index_col := None |}
                  _ eq_refl eq_refl)).
Defined.

(** X8. When pandas (for the return types pandas, modin, dask) or
    pyarrow (for arrow, arrow2, polars, polars2) cannot be imported,
    [read_sql] on a single connection raises without any native call;
    once the query arguments and the connection string are accepted, the
    exception is the [ValueError] that names the missing package. *)
Theorem missing_base_module_rejected rt (a : read_sql_args) (c : conn_value)
    (module : string) :
  ra_conn a = Single c ->
  (module = "pandas" /\ In (ra_return_type a) ["modin"; "dask"; "pandas"])
  \/ (module = "pyarrow"
      /\ In (ra_return_type a) ["arrow"; "arrow2"; "polars"; "polars2"]) ->
  has_module rt module = false ->
  trace (read_sql rt a) = []
  /\ exists e,
      outcome (read_sql rt a) = inl e
      /\ (forall plan cp,
          plan_queries (unwrap_single (ra_query a)) (ra_partition_on a)
            (ra_partition_range a) (ra_partition_num a) = inr plan ->
          rewrite_conn (ConnStr (py_str c)) (ra_protocol a) = inr cp ->
          e = ValueError ("You need to install " ++ module ++ " first")).
Proof.
  intros Hc Hfam Hm.
  assert (D : forall conn protocol queries pq,
             read_sql_dispatch rt conn protocol queries pq a
             = ([], inl (ValueError ("You need to install " ++ module ++ " first")))).
  { intros. unfold read_sql_dispatch.
    destruct Hfam as [[-> Hin] | [-> Hin]].
    - apply str_in_In in Hin. rewrite Hin.
      unfold try_import_module, py_import. now rewrite Hm.
    - assert (N : str_in (ra_return_type a) ["modin"; "dask"; "pandas"] = false).
      { destruct (str_in _ ["modin"; "dask"; "pandas"]) eqn:E; [|reflexivity].
        apply str_in_In in E. simpl in Hin, E.
        decompose [or] Hin; decompose [or] E; try contradiction; congruence. }
      rewrite N. apply str_in_In in Hin. rewrite Hin.
      unfold try_import_module, py_import. now rewrite Hm. }
  rewrite (trace_read_sql_single rt a c Hc), (outcome_read_sql_single rt a c Hc).
  destruct (plan_queries _ _ _ _) as [e | [queries pq]].
  - split; [reflexivity|]. exists e. split; [reflexivity|]. discriminate.
  - destruct (rewrite_conn _ _) as [e | [conn protocol]].
    + split; [reflexivity|]. exists e. split; [reflexivity|]. discriminate.
    + rewrite D. split; [reflexivity|]. eexists. split; [reflexivity|].
      reflexivity.
Qed.

Lemma missing_base_module_rejected_witness :
  trace (read_sql (runtime_with ["pandas"])
           {| ra_conn := Single (ConnStr "postgresql://u:p@h:5432/db");
              ra_query := QStr "SELECT 1"; ra_return_type := "polars";
              ra_protocol := None; ra_partition_on := None;
              ra_partition_range := None; ra_partition_num := None;
              ra_index_col := None |}) = [].
Proof.
  refine (proj1 (missing_base_module_rejected (runtime_with ["pandas"])
                   {| ra_conn := Single (ConnStr "postgresql://u:p@h:5432/db");
                      ra_query := QStr "SELECT 1"; ra_return_type := "polars";
                      ra_protocol := None; ra_partition_on := None;
                      ra_partition_range := None; ra_partition_num := None;
                      ra_index_col := None |}
                   _ "pyarrow" eq_refl _ eq_refl)).
  right. split; [reflexivity|]. simpl. tauto.
Defined.



(** X10. A protocol given by the caller is passed to the engine as it
    is, together with the connection string as it is: the redshift and
    clickhouse rewriting is not applied. *)
Theorem explicit_protocol_passed_on rt (a : read_sql_args) (c : conn_value)
    (p : Protocol) (call : read_sql_call) :
  ra_conn a = Single c ->
  ra_protocol a = Some p ->
  In (EvReadSql call) (trace (read_sql rt a)) ->
  rc_protocol call = p /\ rc_conn call = py_str c.
Proof.
  intros Hc Hp H.
  rewrite (trace_read_sql_single rt a c Hc), Hp in H.
  destruct (plan_queries _ _ _ _) as [e | [queries pq]]; [contradiction|].
  simpl in H. apply read_sql_dispatch_call in H. tauto.
Qed.

Lemma explicit_protocol_passed_on_witness :
  rc_protocol {| rc_conn := "redshift://u:p@h:5439/db";
                 rc_return_type := "pandas";
                 rc_queries := Some ["SELECT 1"]; rc_protocol := Binary;
                 rc_partition_query := None |} = Binary
  /\ rc_conn {| rc_conn := "redshift://u:p@h:5439/db";
                rc_return_type := "pandas";
                rc_queries := Some ["SELECT 1"]; rc_protocol := Binary;
                rc_partition_query := None |}
     = py_str (ConnStr "redshift://u:p@h:5439/db").
Proof.
  exact (explicit_protocol_passed_on demo_runtime
           {| ra_conn := Single (ConnStr "redshift://u:p@h:5439/db");
              ra_query := QStr "SELECT 1"; ra_return_type := "pandas";
              ra_protocol := Some Binary; ra_partition_on := None;
              ra_partition_range := None; ra_partition_num := None;
              ra_index_col := None |}
           _ Binary _ eq_refl eq_refl (or_introl eq_refl)).
Defined.

(** X11. Every call of the native [_read_sql] carries either a list of
    queries and no partition spec (when [partition_on] is absent), or no
    list and a partition spec for the column [partition_on] whose [num]
    is [partition_num] and whose [min] and [max] are both set (a range
    was given) or both [None]. *)
Theorem engine_gets_queries_or_partition rt (a : read_sql_args)
    (call : read_sql_call) :
  In (EvReadSql call) (trace (read_sql rt a)) ->
  (exists qs,
     rc_queries call = Some qs /\ rc_partition_query call = None
     /\ ra_partition_on a = None)
  \/ (exists pq,
        rc_queries call = None /\ rc_partition_query call = Some pq
        /\ ra_partition_on a = Some (pq_column pq)
        /\ pq_num pq = ra_partition_num a
        /\ (pq_min pq = None <-> pq_max pq = None)
        /\ (pq_min pq = None <-> ra_partition_range a = None)).
Proof.
  intros H.
  destruct (read_sql_call_inv rt a call H)
    as (c & queries & pq & conn & protocol & Hc & Hplan & Hrw & Hd).
  apply read_sql_dispatch_call in Hd. destruct Hd as (_ & _ & -> & ->).
  unfold plan_queries in Hplan.
  destruct (unwrap_single (ra_query a)) as [q | qs |]; [| |discriminate];
    destruct (ra_partition_on a) as [col|]; try discriminate;
    injection Hplan as <- <-.
  - right. eexists. repeat split; try reflexivity; simpl;
      destruct (ra_partition_range a) as [[lo hi]|]; simpl; congruence.
  - left. eexists. now repeat split.
  - left. eexists. now repeat split.
Qed.

Lemma engine_gets_queries_or_partition_witness :
  (exists qs,
     @None (list string) = Some qs
     /\ Some {| pq_query := "SELECT * FROM t"; pq_column := "id";
                pq_min := Some 1%Z; pq_max := Some 100%Z;
                pq_num := Some 4%Z |} = None
     /\ ra_partition_on call_singleton_and_partition = None)
  \/ (exists pq,
        @None (list string) = None
        /\ Some {| pq_query := "SELECT * FROM t"; pq_column := "id";
                   pq_min := Some 1%Z; pq_max := Some 100%Z;
                   pq_num := Some 4%Z |} = Some pq
        /\ ra_partition_on call_singleton_and_partition = Some (pq_column pq)
        /\ pq_num pq = ra_partition_num call_singleton_and_partition
        /\ (pq_min pq = None <-> pq_max pq = None)
        /\ (pq_min pq = None
            <-> ra_partition_range call_singleton_and_partition = None)).
Proof.
  exact (engine_gets_queries_or_partition demo_runtime
           call_singleton_and_partition
           {| rc_conn := "postgresql://u:p@h:5432/db";
              rc_return_type := "pandas"; rc_queries := None;
              rc_protocol := Binary;
              rc_partition_query :=
                Some {| pq_query := "SELECT * FROM t"; pq_column := "id";
                        pq_min := Some 1%Z; pq_max := Some 100%Z;
                        pq_num := Some 4%Z |} |}
           (or_introl eq_refl)).
Defined.

(** X12. The engine is asked for one of three formats: "pandas" for the
    return types modin, dask and pandas, "arrow" for arrow, and "arrow2"
    for arrow2, polars and polars2. *)
Theorem engine_format_of_return_type rt (a : read_sql_args)
    (call : read_sql_call) :
  In (EvReadSql call) (trace (read_sql rt a)) ->
  (rc_return_type call = "pandas"
   /\ In (ra_return_type a) ["modin"; "dask"; "pandas"])
  \/ (rc_return_type call = "arrow" /\ ra_return_type a = "arrow")
  \/ (rc_return_type call = "arrow2"
      /\ In (ra_return_type a) ["arrow2"; "polars"; "polars2"]).
Proof.
  intros H.
  destruct (read_sql_call_inv rt a call H)
    as (c & queries & pq & conn & protocol & _ & _ & _ & Hd).
  destruct (read_sql_dispatch_format _ _ _ _ _ _ _ Hd) as [module [E _]].
  unfold engine_format in E.
  destruct (str_in _ ["modin"; "dask"; "pandas"]) eqn:E1.
  - injection E as _ <-. left. split; [reflexivity | now apply str_in_In].
  - destruct (str_in _ ["arrow"; "arrow2"; "polars"; "polars2"]) eqn:E2;
      [|discriminate].
    destruct (str_in _ ["arrow2"; "polars"; "polars2"]) eqn:E3;
      injection E as _ <-.
    + right. right. split; [reflexivity | now apply str_in_In].
    + right. left. split; [reflexivity|].
      apply str_in_In in E2. destruct E2 as [<- | E2]; [reflexivity|].
      apply str_in_In in E2. congruence.
Qed.

Lemma engine_format_of_return_type_witness :
  ("arrow2" = "pandas" /\ In "polars" ["modin"; "dask"; "pandas"])
  \/ ("arrow2" = "arrow" /\ "polars" = "arrow")
  \/ ("arrow2" = "arrow2" /\ In "polars" ["arrow2"; "polars"; "polars2"]).
Proof.
  exact (engine_format_of_return_type demo_runtime
           {| ra_conn := Single (ConnStr "postgresql://u:p@h:5432/db");
              ra_query := QStr "SELECT 1"; ra_return_type := "polars";
              ra_protocol := None; ra_partition_on := None;
              ra_partition_range := None; ra_partition_num := None;
              ra_index_col := None |}
           {| rc_conn := "postgresql://u:p@h:5432/db";
              rc_return_type := "arrow2"; rc_queries := Some ["SELECT 1"];
              rc_protocol := Binary; rc_partition_query := None |}
           (or_introl eq_refl)).
Defined.

(** X13. For a query string with [partition_on] and [partition_num],
    [read_sql] hands the engine no query list and the very partition
    dict that [partition_sql] builds for the query with its ending
    semicolon removed. *)
Theorem read_sql_partition_dict rt (a : read_sql_args) (c : conn_value)
    (q col : string) (n : Z) (call : read_sql_call) :
  ra_conn a = Single c ->
  ra_query a = QStr q ->
  ra_partition_on a = Some col ->
  ra_partition_num a = Some n ->
  In (EvReadSql call) (trace (read_sql rt a)) ->
  rc_queries call = None
  /\ exists pq,
      rc_partition_query call = Some pq
      /\ trace (partition_sql rt c (remove_ending_semicolon q) col n
                  (ra_partition_range a))
         = [EvPartitionSql c pq].
Proof.
  intros Hc Hq Hp Hn H.
  rewrite (trace_read_sql_single rt a c Hc), Hq, Hp, Hn in H. simpl in H.
  destruct (rewrite_conn _ _) as [e | [conn protocol]]; [contradiction|].
  apply read_sql_dispatch_call in H. destruct H as (_ & _ & -> & ->).
  split; [reflexivity|]. eexists. split; reflexivity.
Qed.

Lemma read_sql_partition_dict_witness :
  @None (list string) = None
  /\ exists pq,
      Some {| pq_query := "SELECT * FROM t"; pq_column := "id";
              pq_min := Some 1%Z; pq_max := Some 100%Z; pq_num := Some 4%Z |}
      = Some pq
      /\ trace (partition_sql demo_runtime
                  (ConnStr "postgresql://u:p@h:5432/db")
                  (remove_ending_semicolon "SELECT * FROM t;") "id" 4
                  (Some (1, 100)%Z))
         = [EvPartitionSql (ConnStr "postgresql://u:p@h:5432/db") pq].
Proof.
  exact (read_sql_partition_dict demo_runtime
           (with_query call_singleton_and_partition (QStr "SELECT * FROM t;"))
           (ConnStr "postgresql://u:p@h:5432/db") "SELECT * FROM t;" "id" 4
           {| rc_conn := "postgresql://u:p@h:5432/db";
              rc_return_type := "pandas"; rc_queries := None;
              rc_protocol := Binary;
              rc_partition_query :=
                Some {| pq_query := "SELECT * FROM t"; pq_column := "id";
                        pq_min := Some 1%Z; pq_max := Some 100%Z;
                        pq_num := Some 4%Z |} |}
           eq_refl eq_refl eq_refl eq_refl (or_introl eq_refl)).
Defined.

Lemma app_two_semicolons (p : string) : (p ++ ";") ++ ";" = p ++ ";;".
Proof. induction p as [|x t IH]; simpl; [reflexivity | now rewrite IH]. Qed.

(** X14. For a query that does not end with two semicolons, a call with
    the one-element list [[q]] is the call with the string [q]: same
    native calls, same outcome, whatever the other arguments. *)
Theorem singleton_list_as_string rt (a : read_sql_args) (q : string) :
  (forall p, q <> p ++ ";;") ->
  read_sql rt (with_query a (QList [q])) = read_sql rt (with_query a (QStr q)).
Proof.
  intros H. apply read_sql_singleton_list_same.
  destruct (PyStr.endswith (remove_ending_semicolon q) ";") eqn:E;
    [|reflexivity].
  exfalso.
  destruct (PyStrFacts.endswith_char_inv _ _ E) as [p Hp].
  destruct (PyStr.endswith q ";") eqn:Eq.
  - destruct (PyStrFacts.endswith_char_inv _ _ Eq) as [p' ->].
    rewrite remove_ending_semicolon_ends in Hp. subst p'.
    apply (H p). apply app_two_semicolons.
  - unfold remove_ending_semicolon in E. rewrite Eq in E. congruence.
Qed.

Lemma singleton_list_as_string_witness :
  read_sql demo_runtime
    (with_query call_singleton_and_partition (QList ["SELECT * FROM t;"]))
  = read_sql demo_runtime
      (with_query call_singleton_and_partition (QStr "SELECT * FROM t;")).
Proof.
  apply (singleton_list_as_string demo_runtime call_singleton_and_partition
           "SELECT * FROM t;").
  intros p E.
  assert (L : PyStr.endswith (PyStr.drop_last "SELECT * FROM t;") ";" = true).
  { rewrite E, <- app_two_semicolons, PyStrFacts.drop_last_app_char.
    apply PyStrFacts.endswith_app_char. }
  vm_compute in L. discriminate L.
Defined.

(* ------------------------------------------------------------------ *)
(** ** [get_meta] *)

(** X15. [get_meta] hands the query to the engine as it is (an ending
    semicolon is kept) with the connection string and protocol chosen by
    [rewrite_conn], and it calls the engine before pandas is imported:
    without pandas the call is made and [ModuleNotFoundError] is raised
    afterwards. *)
Theorem get_meta_calls_engine_first rt (c : conn_value) (query : string)
    (protocol : option Protocol) (conn : string) (p : Protocol) :
  rewrite_conn c protocol = inr (conn, p) ->
  trace (get_meta rt c query protocol) = [EvGetMeta conn p query]
  /\ (forall res,
      native_get_meta rt conn p query = inr res ->
      has_module rt "pandas" = false ->
      outcome (get_meta rt c query protocol)
      = inl (ModuleNotFoundError "pandas")).
Proof.
  intros Hrw. split.
  - now rewrite trace_get_meta, Hrw.
  - intros res Hn Hm. unfold get_meta. rewrite Hrw.
    unfold lift, bind at 1. cbv iota beta.
    assert (E : forall m : M DataFrame, snd (let '(t', r) := m in (([] ++ t')%list, r)) = snd m)
      by (now intros [t r]).
    unfold outcome. rewrite E.
    change (outcome (bind (native (EvGetMeta conn p query)
                             (native_get_meta rt conn p query))
                       (reconstruct_pandas rt))
            = inl (ModuleNotFoundError "pandas")).
    rewrite outcome_bind. unfold native. cbn [outcome snd]. rewrite Hn.
    unfold reconstruct_pandas, py_import. now rewrite Hm.
Qed.

Lemma get_meta_calls_engine_first_witness :
  trace (get_meta (runtime_with []) (ConnStr "postgresql://u:p@h:5432/db")
           "SELECT 1;" None)
  = [EvGetMeta "postgresql://u:p@h:5432/db" Binary "SELECT 1;"]
  /\ outcome (get_meta (runtime_with []) (ConnStr "postgresql://u:p@h:5432/db")
                "SELECT 1;" None)
     = inl (ModuleNotFoundError "pandas").
Proof.
  destruct (get_meta_calls_engine_first (runtime_with [])
              (ConnStr "postgresql://u:p@h:5432/db") "SELECT 1;" None
              "postgresql://u:p@h:5432/db" Binary eq_refl) as [H1 H2].
  split; [exact H1|].
  exact (H2 _ eq_refl eq_refl).
Defined.

(* ------------------------------------------------------------------ *)
(** ** Rebuilding frames *)












(* ------------------------------------------------------------------ *)
(** ** [Connection] objects *)

Lemma str_app_assoc (a b c : string) : (a ++ b) ++ c = a ++ b ++ c.
Proof. induction a as [|x a IH]; simpl; [reflexivity | now rewrite IH]. Qed.

Lemma prefix_app (p x : string) : String.prefix p (p ++ x) = true.
Proof.
  induction p as [|c p IH]; simpl; [now destruct x|].
  destruct (ascii_dec c c) as [_ | N]; [exact IH | now destruct N].
Qed.

(** The string of a [Connection] is its backend, a colon, and details
    that start with two slashes. *)
Lemma Connection_new_shape quote urlencode
    (backend username password server : string) (port : option Z)
    (database : string) (database_options : option (list (string * string)))
    (db_path : string) :
  exists details,
    connection (Connection_new quote urlencode backend username password
                  server port database database_options db_path)
    = backend ++ ":" ++ details
    /\ String.prefix "//" details = true.
Proof.
  unfold Connection_new.
  destruct (String.eqb backend "sqlite").
  - exists ("//" ++ quote db_path). split; [reflexivity|].
    apply prefix_app.
  - destruct database_options as [[|o os]|].
    + eexists. split; [reflexivity|]. apply (prefix_app "//").
    + exists ("//" ++ (username ++ ":" ++ password ++ "@" ++ server ++ ":"
                       ++ str_port port ++ "/" ++ database)
                   ++ "?" ++ urlencode (o :: os)).
      split; [|apply prefix_app].
      cbn [connection]. rewrite str_app_assoc.
      change ("://" ++ username ++ ":" ++ password ++ "@" ++ server ++ ":"
              ++ str_port port ++ "/" ++ database)
        with (":" ++ "//" ++ username ++ ":" ++ password ++ "@" ++ server
              ++ ":" ++ str_port port ++ "/" ++ database).
      now rewrite !str_app_assoc.
    + eexists. split; [reflexivity|]. apply (prefix_app "//").
Qed.

(** X19. A [Connection] object handed to [rewrite_conn] without a
    protocol is treated by its [backend] argument (when that has no
    colon): a backend containing "redshift" is run as postgresql with
    cursor, otherwise one containing "clickhouse" as mysql with text,
    and the user, password, server, port, database and options are kept
    behind the new backend; any other backend is left as it is with
    binary. *)
Theorem rewrite_conn_of_Connection quote urlencode
    (backend username password server : string) (port : option Z)
    (database : string) (database_options : option (list (string * string)))
    (db_path : string) :
  PyStr.contains ":" backend = false ->
  exists details,
    connection (Connection_new quote urlencode backend username password
                  server port database database_options db_path)
    = backend ++ ":" ++ details
    /\ String.prefix "//" details = true
    /\ rewrite_conn
         (ConnObj (Connection_new quote urlencode backend username password
                     server port database database_options db_path)) None
       = if PyStr.contains "redshift" backend then
           inr ("postgresql:" ++ details, Cursor)
         else if PyStr.contains "clickhouse" backend then
           inr ("mysql:" ++ details, Text)
         else inr (backend ++ ":" ++ details, Binary).
Proof.
  intros Hc.
  destruct (Connection_new_shape quote urlencode backend username password
              server port database database_options db_path)
    as [details [E P]].
  exists details. split; [exact E|]. split; [exact P|].
  rewrite (rewrite_conn_split (ConnObj (Connection_new quote urlencode backend
                                          username password server port
                                          database database_options db_path))
             backend details E Hc).
  simpl py_str. now rewrite E.
Qed.

Lemma rewrite_conn_of_Connection_witness :
  exists details,
    connection (Connection_new (fun s => s) (fun _ => "sslmode=require")
                  "redshift" "u" "p" "h" (Some 5439%Z) "db"
                  (Some [("sslmode", "require")]) "")
    = "redshift" ++ ":" ++ details
    /\ String.prefix "//" details = true
    /\ rewrite_conn
         (ConnObj (Connection_new (fun s => s) (fun _ => "sslmode=require")
                     "redshift" "u" "p" "h" (Some 5439%Z) "db"
                     (Some [("sslmode", "require")]) "")) None
       = if PyStr.contains "redshift" "redshift" then
           inr ("postgresql:" ++ details, Cursor)
         else if PyStr.contains "clickhouse" "redshift" then
           inr ("mysql:" ++ details, Text)
         else inr ("redshift" ++ ":" ++ details, Binary).
Proof.
  exact (rewrite_conn_of_Connection (fun s => s) (fun _ => "sslmode=require")
           "redshift" "u" "p" "h" (Some 5439%Z) "db"
           (Some [("sslmode", "require")]) "" eq_refl).
Defined.

(** X20. For every backend other than "sqlite" the connection string
    does not depend on [db_path] (so a path given for bigquery is
    dropped), and for "sqlite" it depends on nothing but the quoted
    [db_path]. *)
Theorem Connection_new_db_path quote urlencode
    (backend username password server : string) (port : option Z)
    (database : string) (database_options : option (list (string * string)))
    (db_path : string) :
  (backend <> "sqlite" ->
   forall db_path',
     Connection_new quote urlencode backend username password server port
       database database_options db_path
     = Connection_new quote urlencode backend username password server port
         database database_options db_path')
  /\ (backend = "sqlite" ->
      connection (Connection_new quote urlencode backend username password
                    server port database database_options db_path)
      = "sqlite://" ++ quote db_path).
Proof.
  unfold Connection_new. split.
  - intros H db_path'. apply String.eqb_neq in H. now rewrite H.
  - now intros ->.
Qed.

Lemma Connection_new_db_path_witness :
  Connection_new (fun s => s) (fun _ => "") "bigquery" "" "" "" None "" None
    "/secrets/key.json"
  = Connection_new (fun s => s) (fun _ => "") "bigquery" "" "" "" None "" None ""
  /\ connection (Connection_new (fun s => s) (fun _ => "") "sqlite" "" "" ""
                   None "" None "/tmp/x.db")
     = "sqlite://" ++ "/tmp/x.db".
Proof.
  split.
  - refine (proj1 (Connection_new_db_path (fun s => s) (fun _ => "") "bigquery"
                     "" "" "" None "" None "/secrets/key.json") _ "").
    discriminate.
  - exact (proj2 (Connection_new_db_path (fun s => s) (fun _ => "") "sqlite"
                    "" "" "" None "" None "/tmp/x.db") eq_refl).
Defined.

(* ------------------------------------------------------------------ *)
(** ** [read_sql_pandas] *)

(** X21. What [read_sql_pandas] returns: on a single connection the
    rebuilt pandas frame, with [set_index] applied exactly when
    [index_col] is given; on a dict of connections the arrow table
    converted to pandas, where [index_col] is ignored. *)
Theorem read_sql_pandas_result rt (sql : query_arg) (con : conn_arg)
    (index_col : option string) (protocol : option Protocol)
    (partition_on : option string) (partition_range : option (Z * Z))
    (partition_num : option Z) (f : frame) :
  outcome (read_sql_pandas rt sql con index_col protocol partition_on
             partition_range partition_num) = inr f ->
  match con with
  | Single _ =>
      exists df, f = match index_col with
                     | Some col => FSetIndex col (FPandas df)
                     | None => FPandas df
                     end
  | Federated _ => exists t, f = FToPandas t
  end.
Proof.
  unfold read_sql_pandas.
  set (a := {| ra_conn := con; ra_query := sql; ra_return_type := "pandas";
               ra_protocol := protocol; ra_partition_on := partition_on;
               ra_partition_range := partition_range;
               ra_partition_num := partition_num;
               ra_index_col := index_col |}).
  assert (Hcon : ra_conn a = con) by reflexivity.
  assert (Hrt : ra_return_type a = "pandas") by reflexivity.
  assert (Hidx : ra_index_col a = index_col) by reflexivity.
  clearbody a. intros H.
  destruct con as [c | d].
  - rewrite (outcome_read_sql_single rt a c Hcon) in H.
    destruct (plan_queries _ _ _ _) as [e | [queries pq]]; [discriminate|].
    destruct (rewrite_conn _ _) as [e | [conn p]]; [discriminate|].
    unfold read_sql_dispatch in H. rewrite Hrt in H.
    change (str_in "pandas" ["modin"; "dask"; "pandas"]) with true in H.
    cbv iota in H. rewrite outcome_bind in H.
    destruct (outcome (try_import_module rt "pandas")); [discriminate|].
    rewrite outcome_bind in H. unfold native in H. cbn [outcome snd] in H.
    destruct (native_read_sql rt _) as [e | res]; [discriminate|].
    unfold finish_pandas in H. rewrite outcome_bind, Hrt, Hidx in H.
    destruct (outcome (reconstruct_pandas rt res)) as [e | df]; [discriminate|].
    cbn in H. injection H as <-. now exists df.
  - destruct (federated_outcome_inv rt a d f Hcon H) as [t Ht].
    rewrite Hrt in Ht. exists t. exact Ht.
Qed.

Lemma read_sql_pandas_result_witness :
  exists t,
    FToPandas (TableFromBatches [RecordBatchFromArrays [ImportFromC 8192 8200] ["id"]])
    = FToPandas t.
Proof.
  exact (read_sql_pandas_result demo_runtime (QStr "SELECT * FROM db1.t")
           (Federated [("db1", ConnStr "postgresql://u:p@h1:5432/a")])
           (Some "id") None None None None _ eq_refl).
Defined.
